(** * ParkrunAnalyser: the results pipeline of [parkrun_analyser.py]

    A shallow embedding of the program: the page request and its status
    handling, the choice of the results table, the conversion of the
    "Run Date" and "Time" columns, and the tick labels of the chart.

    The program is glue around three libraries.  Their functions are modelled
    in the modules [Requests], [Pandas] and [Plotly] below, on the part of
    their input space the program exercises; an input outside that part
    evaluates to [Unmodelled], which no statement below takes for a result or
    for an error.  The network and the HTML table parser are parameters of the
    program ([session_get], [read_html]).  The functions that print return
    the lines they print along with their outcome. *)

From Stdlib Require Import ZArith NArith List String Ascii Bool Lia Permutation.
Import ListNotations.

Local Open Scope string_scope.
Local Open Scope Z_scope.

(* ================================================================== *)
(** ** Python values and control                                       *)
(* ================================================================== *)

Module Py.

(** What the HTTP library hands back from [session.get]. *)
Record Response := mkResponse {
  status_code : Z;
  text : string
}.

(** The exceptions that can leave the program.  [RuntimeError] carries the
    message the program builds; [HTTPError] carries the response, as the
    HTTP library attaches it; the other library errors are kept by class,
    a subclass under the class it extends (the [OutOfBoundsTimedelta] of
    the data library is a [ValueError]). *)
Inductive Exn :=
| RuntimeError (msg : string)
| HTTPError (response : Response)
| RequestException
| ValueError
| AttributeError
| KeyError.

(** Running a piece of the program either returns, raises, or leaves the
    modelled part of a library. *)
Inductive Outcome (A : Type) :=
| Return (a : A)
| Raise (e : Exn)
| Unmodelled.

Arguments Return {A} a.
Arguments Raise {A} e.
Arguments Unmodelled {A}.

Definition bind {A B} (c : Outcome A) (k : A -> Outcome B) : Outcome B :=
  match c with
  | Return a => k a
  | Raise e => Raise e
  | Unmodelled => Unmodelled
  end.

(** Element by element, left to right, stopping at the first element that
    does not return. *)
Fixpoint mapM {A B} (f : A -> Outcome B) (l : list A) : Outcome (list B) :=
  match l with
  | [] => Return []
  | x :: l' =>
      bind (f x) (fun y => bind (mapM f l') (fun ys => Return (y :: ys)))
  end.

(** A run of a part of the program that prints: the lines printed, in
    order, and how the part ended. *)
Definition Run (A : Type) : Type := (list string * Outcome A)%type.

Definition lift {A} (c : Outcome A) : Run A := ([], c).

Definition print (line : string) : Run unit := ([line], Return tt).

(** The lines of the first part come before those of the second; a part
    that does not return ends the run. *)
Definition bind_run {A B} (c : Run A) (k : A -> Run B) : Run B :=
  match snd c with
  | Return a => ((fst c ++ fst (k a))%list, snd (k a))
  | Raise e => (fst c, Raise e)
  | Unmodelled => (fst c, Unmodelled)
  end.

(** [s.count(c)] for a one-character [c]. *)
Fixpoint count (c : ascii) (s : string) : nat :=
  match s with
  | EmptyString => O
  | String a s' => if Ascii.eqb a c then S (count c s') else count c s'
  end.

(** [s.isascii()]: every character is below code point 128.  A string
    stands for the bytes of its UTF-8 encoding, in which the characters
    from code point 128 on are the bytes from 128 on. *)
Fixpoint isascii (s : string) : bool :=
  match s with
  | EmptyString => true
  | String c s' => (N_of_ascii c <? 128)%N && isascii s'
  end.

(** ASCII decimal digits, code points 48 to 57. *)
Definition is_digit (c : ascii) : bool :=
  let n := N_of_ascii c in (48 <=? n)%N && (n <=? 57)%N.

Definition digit_value (c : ascii) : Z := Z.of_N (N_of_ascii c) - 48.

Fixpoint all_digits (s : string) : bool :=
  match s with
  | EmptyString => true
  | String c s' => is_digit c && all_digits s'
  end.

(** The number a string of digits denotes, most significant digit first,
    continuing from [acc]. *)
Fixpoint digits_value_from (acc : Z) (s : string) : Z :=
  match s with
  | EmptyString => acc
  | String c s' => digits_value_from (10 * acc + digit_value c) s'
  end.

Definition digits_value (s : string) : Z := digits_value_from 0 s.

(** [int(s)] on a string of ASCII digits; the empty string is rejected.
    Signs, blanks and underscores are not modelled, and neither is the
    limit on the number of digits, which [int_limited] adds. *)
Definition int (s : string) : Outcome Z :=
  match s with
  | EmptyString => Raise ValueError
  | _ => if all_digits s then Return (digits_value s) else Unmodelled
  end.

(** The interpreter's limit on the digits of a numeral it converts,
    [sys.get_int_max_str_digits()] by default. *)
Definition int_max_str_digits : nat := 4300.

(** [int(s)] on text of any length: a string of more characters than the
    limit raises [ValueError] ("Exceeds the limit (4300 digits) for integer
    string conversion"), leading zeros included. *)
Definition int_limited (s : string) : Outcome Z :=
  if (String.length s <=? int_max_str_digits)%nat then int s
  else Raise ValueError.

Definition digit_char (d : N) : ascii := ascii_of_N (48 + d).

(** Decimal digits of a natural number, prepended to [acc]; [fuel] bounds
    the number of digits. *)
Fixpoint decimal_from (fuel : nat) (n : N) (acc : string) : string :=
  match fuel with
  | O => acc
  | S fuel' =>
      let acc' := String (digit_char (n mod 10)) acc in
      if (n / 10 =? 0)%N then acc' else decimal_from fuel' (n / 10) acc'
  end.

Definition decimal (n : N) : string :=
  decimal_from (S (N.to_nat (N.log2 n))) n "".

(** [str(z)] for an integer. *)
Definition str (z : Z) : string :=
  if z <? 0 then "-" ++ decimal (Z.abs_N z) else decimal (Z.abs_N z).

(** [format(z, "02d")]: the sign, then the digits, zero-filled to a total
    width of two. *)
Definition format_02d (z : Z) : string :=
  if z <? 0 then str z
  else if z <? 10 then "0" ++ str z
  else str z.

End Py.

Import Py.

Notation "x <- c ;; k" := (bind c (fun x => k))
  (at level 61, c at next level, right associativity).

Notation "x <~ c ;; k" := (bind_run c (fun x => k))
  (at level 61, c at next level, right associativity).

(* ================================================================== *)
(** ** The HTTP library                                                *)
(* ================================================================== *)

Module Requests.

(** What [session.get] is given: the address, the headers of the session
    and the timeout in seconds. *)
Record Request := mkRequest {
  url : string;
  headers : list (string * string);
  timeout : Z
}.

(** [Response.raise_for_status()]: a client error (400 to 499) or a server
    error (500 to 599) raises [HTTPError] with the response attached; any
    other status returns. *)
Definition raise_for_status (r : Response) : Outcome unit :=
  if (400 <=? status_code r) && (status_code r <? 500) then Raise (HTTPError r)
  else if (500 <=? status_code r) && (status_code r <? 600) then Raise (HTTPError r)
  else Return tt.

End Requests.

(* ================================================================== *)
(** ** The data-frame library                                          *)
(* ================================================================== *)

Module Pandas.

(** Column labels: text for a one-row header, an integer position for a
    table without header, a tuple for a header of several rows. *)
Inductive Label :=
| LStr (s : string)
| LInt (i : Z)
| LTuple (parts : list string).

Definition label_eqb (a b : Label) : bool :=
  match a, b with
  | LStr s, LStr t => String.eqb s t
  | LInt i, LInt j => Z.eqb i j
  | LTuple p, LTuple q => if list_eq_dec string_dec p q then true else false
  | _, _ => false
  end.

(** A calendar date.  The range of the library's timestamp type is not
    modelled. *)
Record Date := mkDate { year : Z; month : Z; day : Z }.

(** The values a column can hold.  [Seconds ns] is the floating-point
    number of seconds [ns / 10^9] that [total_seconds] returns, kept as the
    nanosecond count it was computed from.  The durations the model
    produces are whole seconds below [2^62] nanoseconds, for which the
    double-precision quotient is the number of seconds itself. *)
Inductive Cell :=
| Str (s : string)
| NaN
| Int (z : Z)
| Timestamp (d : Date)
| NaT
| Timedelta (ns : Z)
| Seconds (ns : Z).

Definition Series := list Cell.

(** A frame is its columns, left to right; every column lists its values
    top to bottom. *)
Definition DataFrame := list (Label * Series).

Definition columns (df : DataFrame) : list Label := map fst df.

(** [len(df)]: the number of rows. *)
Definition len (df : DataFrame) : Z :=
  match df with
  | [] => 0
  | c :: _ => Z.of_nat (List.length (snd c))
  end.

Definition selected (l : Label) (df : DataFrame) : DataFrame :=
  filter (fun c => label_eqb (fst c) l) df.

(** [df[l]]: the column labelled [l].  A label carried by several columns
    selects a frame, which the conversions below are not modelled on. *)
Definition getitem (df : DataFrame) (l : Label) : Outcome Series :=
  match selected l df with
  | [] => Raise KeyError
  | [c] => Return (snd c)
  | _ => Unmodelled
  end.

(** [df[l] = s]: an existing label keeps its place and takes the new
    values; a new label is added as the last column. *)
Definition setitem (df : DataFrame) (l : Label) (s : Series) : DataFrame :=
  if existsb (label_eqb l) (columns df)
  then map (fun c => if label_eqb (fst c) l then (fst c, s) else c) df
  else (df ++ [(l, s)])%list.

(** [df[[l1, ..., ln]]]: the columns with these labels, in the order of the
    list. *)
Definition getitem_list (df : DataFrame) (ls : list Label) : Outcome DataFrame :=
  cols <- mapM (fun l => match selected l df with
                         | [] => Raise KeyError
                         | cs => Return cs
                         end) ls ;;
  Return (List.concat cols).

(** [s.apply(f)] for a Python function [f] that begins by calling a method
    of [str] on its argument: a value that is not a string has no such
    method. *)
Definition apply_cell (f : string -> string) (c : Cell) : Outcome Cell :=
  match c with
  | Str x => Return (Str (f x))
  | _ => Raise AttributeError
  end.

Definition apply (f : string -> string) (s : Series) : Outcome Series :=
  mapM (apply_cell f) s.

(** *** [to_datetime] with a format *)

(** One character of a pattern. *)
Inductive CharClass :=
| Char (c : ascii)
| Range (lo hi : ascii).

Definition in_class (k : CharClass) (c : ascii) : bool :=
  match k with
  | Char a => Ascii.eqb a c
  | Range lo hi => (N_of_ascii lo <=? N_of_ascii c)%N && (N_of_ascii c <=? N_of_ascii hi)%N
  end.

Inductive Directive :=
| Dir_d
| Dir_m
| Dir_Y
| Lit (c : ascii).

Definition digit : CharClass := Range "0" "9".

(** The regular expression of each directive, as the alternatives it tries
    from left to right:
    [%d] is [3[0-1]|[1-2]\d|0[1-9]|[1-9]| [1-9]],
    [%m] is [1[0-2]|0[1-9]|[1-9]], [%Y] is [\d\d\d\d].
    On ASCII text [\d] is [0-9]; on other text it also matches the decimal
    digits of other scripts, which is why [strptime] below is modelled on
    ASCII text only. *)
Definition pattern (d : Directive) : list (list CharClass) :=
  match d with
  | Dir_d => [ [Char "3"; Range "0" "1"];
               [Range "1" "2"; digit];
               [Char "0"; Range "1" "9"];
               [Range "1" "9"];
               [Char " "; Range "1" "9"] ]
  | Dir_m => [ [Char "1"; Range "0" "2"];
               [Char "0"; Range "1" "9"];
               [Range "1" "9"] ]
  | Dir_Y => [ [digit; digit; digit; digit] ]
  | Lit c => [ [Char c] ]
  end.

Definition is_separator (c : ascii) : bool :=
  existsb (Ascii.eqb c) ["/"; "-"; "."; ":"]%char.

(** The directives of a format string.  The model covers [%d], [%m], [%Y]
    and the separators [/ - . :]. *)
Fixpoint compile_format (fmt : string) : option (list Directive) :=
  match fmt with
  | EmptyString => Some []
  | String "%" (String c rest) =>
      match (if Ascii.eqb c "d" then Some Dir_d
             else if Ascii.eqb c "m" then Some Dir_m
             else if Ascii.eqb c "Y" then Some Dir_Y
             else None) with
      | Some d => option_map (cons d) (compile_format rest)
      | None => None
      end
  | String c rest =>
      if is_separator c then option_map (cons (Lit c)) (compile_format rest)
      else None
  end.

(** One alternative against the front of [s]: the text it consumes and
    what is left. *)
Fixpoint match_classes (ks : list CharClass) (s : string) : option (string * string) :=
  match ks with
  | [] => Some (EmptyString, s)
  | k :: ks' =>
      match s with
      | EmptyString => None
      | String c s' =>
          if in_class k c then
            match match_classes ks' s' with
            | Some (t, rest) => Some (String c t, rest)
            | None => None
            end
          else None
      end
  end.

(** Every alternative of a directive that matches the front of [s], in the
    order the matcher tries them. *)
Definition alternatives (d : Directive) (s : string) : list (string * string) :=
  flat_map (fun ks => match match_classes ks s with
                      | Some r => [r]
                      | None => []
                      end) (pattern d).

(** The fields a match fills in, with the defaults of the parser. *)
Record Fields := mkFields { f_year : Z; f_month : Z; f_day : Z }.

Definition default_fields : Fields := mkFields 1900 1 1.

(** [int] of a matched group: a leading blank is skipped. *)
Definition group_value (t : string) : Z :=
  match t with
  | String c t' => if Ascii.eqb c " " then digits_value t' else digits_value t
  | EmptyString => digits_value t
  end.

Definition record_group (d : Directive) (t : string) (f : Fields) : Fields :=
  match d with
  | Dir_d => mkFields (f_year f) (f_month f) (group_value t)
  | Dir_m => mkFields (f_year f) (group_value t) (f_day f)
  | Dir_Y => mkFields (group_value t) (f_month f) (f_day f)
  | Lit _ => f
  end.

Fixpoint first_success {A B} (f : A -> option B) (l : list A) : option B :=
  match l with
  | [] => None
  | x :: l' => match f x with
               | Some y => Some y
               | None => first_success f l'
               end
  end.

(** The match of the whole format against the front of [s], backtracking
    over the alternatives of each directive. *)
Fixpoint match_directives (ds : list Directive) (s : string) (f : Fields)
  : option (Fields * string) :=
  match ds with
  | [] => Some (f, s)
  | d :: ds' =>
      first_success (fun r => match_directives ds' (snd r) (record_group d (fst r) f))
                    (alternatives d s)
  end.

Definition is_leap (y : Z) : bool :=
  (y mod 4 =? 0) && (negb (y mod 100 =? 0) || (y mod 400 =? 0)).

Definition days_in_month (y m : Z) : Z :=
  if m =? 2 then (if is_leap y then 29 else 28)
  else if (m =? 4) || (m =? 6) || (m =? 9) || (m =? 11) then 30
  else 31.

(** The dates [datetime.date(y, m, d)] accepts. *)
Definition valid_date (y m d : Z) : bool :=
  (1 <=? y) && (y <=? 9999) && (1 <=? m) && (m <=? 12) &&
  (1 <=? d) && (d <=? days_in_month y m).

(** One string against the format: the format must match at the front, no
    text may remain, and the fields must make a date.  Text with a
    character from code point 128 on is outside the model: there the
    library's [\d] and [int] also read the decimal digits of other
    scripts. *)
Definition strptime (val : string) (ds : list Directive) : Outcome Date :=
  if isascii val then
    match match_directives ds val default_fields with
    | None => Raise ValueError
    | Some (f, EmptyString) =>
        if valid_date (f_year f) (f_month f) (f_day f)
        then Return (mkDate (f_year f) (f_month f) (f_day f))
        else Raise ValueError
    | Some (_, String _ _) => Raise ValueError
    end
  else Unmodelled.

(** The strings the library reads as a missing value. *)
Definition nat_strings : list string := ["NaT"; "nat"; "NAT"; "nan"; "NaN"; "NAN"].

Definition is_null_string (s : string) : bool :=
  String.eqb s "" || existsb (String.eqb s) nat_strings.

Definition to_datetime_cell (ds : list Directive) (c : Cell) : Outcome Cell :=
  match c with
  | NaN => Return NaT
  | Str s =>
      if is_null_string s then Return NaT
      else d <- strptime s ds ;; Return (Timestamp d)
  | _ => Unmodelled
  end.

(** [to_datetime(arg, format=fmt)] with the default [errors="raise"]: the
    values are converted in order and the first failure is raised; a
    missing value converts to [NaT]. *)
Definition to_datetime (arg : Series) (fmt : string) : Outcome Series :=
  match compile_format fmt with
  | None => Unmodelled
  | Some ds => mapM (to_datetime_cell ds) arg
  end.

(** *** [to_timedelta] on clock strings

    Durations are counted in nanoseconds and kept in signed 64-bit
    integers.  A field, a product or a sum that leaves that range raises
    [OutOfBoundsTimedelta], which is a [ValueError]. *)

Definition int64_max : Z := 9223372036854775807.

Definition int64_min : Z := - int64_max - 1.

Definition fits_int64 (z : Z) : bool := (int64_min <=? z) && (z <=? int64_max).

(** A 64-bit value, or the error of a value out of bounds. *)
Definition checked (z : Z) : Outcome Z :=
  if fits_int64 z then Return z else Raise ValueError.

(** A field of [n] units of [m] nanoseconds added to the sum:
    [r = <int64_t>n * m; result += r]. *)
Definition add_field (result n m : Z) : Outcome Z :=
  n <- checked n ;;
  r <- checked (n * m) ;;
  checked (result + r).

(** The nanoseconds from which [total_seconds], a division in double
    precision, is no longer exact on whole seconds: below 2^62 every whole
    number of seconds is a double (10^9 is a multiple of 2^9) and the
    quotient is the number of seconds; from 2^62 on the quotient of an
    odd number of seconds can fall one short. *)
Definition exact_seconds_limit : Z := 4611686018427387904.

Inductive ClockUnit := U_h | U_m | U_s.

(** The state of the scan of one string: the unit of the field read last,
    the nanoseconds added up so far, the digits of the field being read,
    and the multiplier of the last field. *)
Record Scan := mkScan {
  current_unit : option ClockUnit;
  result : Z;
  number : string;
  mult : Z
}.

Definition scan_start : Scan := mkScan None 0 "" 0.

(** One character of the scan.  A digit (code points 48 to 57 only)
    joins the current field; a colon closes it as hours, then minutes, then
    seconds, and adds it to the sum.  Signs, blanks, the decimal point and
    unit names are outside the model. *)
Definition scan_char (st : Scan) (c : ascii) : Outcome Scan :=
  if is_digit c then
    Return (mkScan (current_unit st) (result st) (number st ++ String c "") (mult st))
  else if Ascii.eqb c ":" then
    match number st with
    | EmptyString => Raise ValueError
    | _ =>
        let um := match current_unit st with
                  | None => (U_h, 1000000000 * 3600)
                  | Some U_h => (U_m, 1000000000 * 60)
                  | Some U_m => (U_s, 1000000000)
                  | Some U_s => (U_s, mult st)
                  end in
        n <- int_limited (number st) ;;
        total <- add_field (result st) n (snd um) ;;
        Return (mkScan (Some (fst um)) total "" (snd um))
    end
  else Unmodelled.

Fixpoint scan (st : Scan) (ts : string) : Outcome Scan :=
  match ts with
  | EmptyString => Return st
  | String c ts' => st' <- scan_char st c ;; scan st' ts'
  end.

(** After the last character: a clock string must end in its seconds
    field, that is, the scan must have closed the minutes.  A duration of
    [exact_seconds_limit] nanoseconds or more that fits in 64 bits is
    returned by the library, but its seconds are not exact: the model
    leaves it out. *)
Definition scan_end (st : Scan) : Outcome Z :=
  match current_unit st with
  | Some U_m =>
      n <- int_limited (number st) ;;
      total <- add_field (result st) n 1000000000 ;;
      if total <? exact_seconds_limit then Return total else Unmodelled
  | Some _ => Raise ValueError
  | None => Unmodelled
  end.

(** The nanoseconds a clock string denotes. *)
Definition parse_timedelta_string (ts : string) : Outcome Z :=
  st <- scan scan_start ts ;; scan_end st.

Definition to_timedelta_cell (c : Cell) : Outcome Cell :=
  match c with
  | Str s => ns <- parse_timedelta_string s ;; Return (Timedelta ns)
  | _ => Unmodelled
  end.

(** [to_timedelta(arg)] on a column of strings. *)
Definition to_timedelta (arg : Series) : Outcome Series :=
  mapM to_timedelta_cell arg.

Definition total_seconds_cell (c : Cell) : Outcome Cell :=
  match c with
  | Timedelta ns => Return (Seconds ns)
  | _ => Unmodelled
  end.

(** [s.dt.total_seconds()]. *)
Definition total_seconds (s : Series) : Outcome Series :=
  mapM total_seconds_cell s.

Definition astype_int_cell (c : Cell) : Outcome Cell :=
  match c with
  | Seconds ns => Return (Int (Z.quot ns 1000000000))
  | _ => Unmodelled
  end.

(** [s.astype(int)] on seconds: the fraction is dropped. *)
Definition astype_int (s : Series) : Outcome Series :=
  mapM astype_int_cell s.

(** *** [read_html]

    The tables of a page, in document order.  The list the function returns
    is never empty: on a page with no table it raises [ValueError] ("No
    tables found").  [tables_of] stands for the extraction of the tables
    from the markup, which is not modelled. *)
Definition read_html (tables_of : string -> list DataFrame) (io : string)
  : Outcome (list DataFrame) :=
  match tables_of io with
  | [] => Raise ValueError
  | tables => Return tables
  end.

End Pandas.

(* ================================================================== *)
(** ** The charting library                                            *)
(* ================================================================== *)

Module Plotly.

Import Pandas.

(** A line chart, by the settings the program gives it. *)
Record Figure := mkFigure {
  data_frame : DataFrame;
  x : string;
  y : string;
  title : string;
  xaxis_title : string;
  yaxis_title : string;
  tickvals : Series;
  ticktext : list string
}.

(** [px.line(df, x=.., y=.., title=..)]: [x] and [y] must name columns of
    the frame; the axis titles default to the column names and the ticks
    are left to the library. *)
Definition line (df : DataFrame) (x y title : string) : Outcome Figure :=
  if existsb (label_eqb (LStr x)) (columns df)
     && existsb (label_eqb (LStr y)) (columns df)
  then Return (mkFigure df x y title x y [] [])
  else Raise ValueError.

Definition update_layout (fig : Figure) (xaxis_title yaxis_title : string) : Figure :=
  mkFigure (data_frame fig) (x fig) (y fig) (title fig) xaxis_title yaxis_title
           (tickvals fig) (ticktext fig).

Definition update_yaxes (fig : Figure) (tickvals : Series) (ticktext : list string) : Figure :=
  mkFigure (data_frame fig) (x fig) (y fig) (title fig) (xaxis_title fig)
           (yaxis_title fig) tickvals ticktext.

End Plotly.

(* ================================================================== *)
(** ** The program                                                     *)
(* ================================================================== *)

Import Requests Pandas Plotly.

(** [f"{v//60:02d}:{v % 60:02d}"]; [//] and [%] round towards minus
    infinity, as [Z.div] and [Z.modulo] do. *)
Definition tick_label (v : Z) : string :=
  format_02d (v / 60) ++ ":" ++ format_02d (v mod 60).

(** Returns the file [fig.write_html] writes, with the chart written. *)
Definition _generate_graph (data_frame : DataFrame) : Run (string * Figure) :=
  fig <~ lift (line data_frame "Run Date" "time_seconds" "Parkrun results") ;;
  let fig := update_layout fig "Date" "Time (minute:seconds)" in
  time_seconds <~ lift (getitem data_frame (LStr "time_seconds")) ;;
  labels <~ lift (mapM (fun c => match c with
                                 | Int v => Return (tick_label v)
                                 | _ => Unmodelled
                                 end) time_seconds) ;;
  let fig := update_yaxes fig time_seconds labels in
  let output_file_name := "results.html" in
  _ <~ print ("Writing output to " ++ output_file_name) ;;
  lift (Return (output_file_name, fig)).

Definition _normalise_time_string (time_str : string) : string :=
  if Nat.eqb (count ":" time_str) 1 then "00:" ++ time_str else time_str.

Definition session_headers : list (string * string) :=
  [ ("User-Agent", "Mozilla/5.0 (Windows NT 10.0; Win64; x64; rv:93.0) Gecko/20100101 Firefox/93.0");
    ("Accept", "text/html,application/xhtml+xml,application/xml;q=0.9,image/avif,image/webp,*/*;q=0.8");
    ("Accept-Language", "en-US,en;q=0.5");
    ("Accept-Encoding", "gzip, deflate, br");
    ("DNT", "1");
    ("Connection", "keep-alive");
    ("Upgrade-Insecure-Requests", "1");
    ("Sec-Fetch-Dest", "document");
    ("Sec-Fetch-Mode", "navigate");
    ("Sec-Fetch-Site", "none");
    ("Sec-Fetch-User", "?1") ].

(** [set.issubset(iterable)]: every element of the set occurs among the
    elements of the iterable. *)
Definition issubset (s other : list Label) : bool :=
  forallb (fun l => existsb (label_eqb l) other) s.

Definition required_columns : list Label := [LStr "Event"; LStr "Run Date"; LStr "Time"].

(** The right-hand side of the assignment to [results_df["time_seconds"]]:
    normalise every time string, read it as a duration, take its total
    seconds and convert them to integers. *)
Definition time_seconds_of (time : Series) : Outcome Series :=
  time <- apply _normalise_time_string time ;;
  time <- to_timedelta time ;;
  time <- total_seconds time ;;
  astype_int time.

Section Program.

(** The network: the answer [session.get] gives to a request, or the
    exception it raises. *)
Variable session_get : Request -> Outcome Response.

(** The HTML table parser: the tables of a page, in document order. *)
Variable read_html : string -> Outcome (list DataFrame).

Definition _request_results_page (athlete_id : string) : Run Response :=
  let url := "https://www.parkrun.org.uk/parkrunner/" ++ athlete_id ++ "/all/" in
  _ <~ print ("Requesting data from " ++ url) ;;
  response <~ lift (session_get (mkRequest url session_headers 10)) ;;
  _ <~ lift (raise_for_status response) ;;
  lift (Return response).

(** The [for ... else] over the tables: the first table that passes the
    test, or the error of the [else] branch. *)
Definition find_results_table (tables : list DataFrame) : Outcome DataFrame :=
  match find (fun df => issubset required_columns (columns df)) tables with
  | Some df => Return df
  | None => Raise (RuntimeError "Could not find results table")
  end.

Definition _parse_results_page (page_contents : string) : Outcome DataFrame :=
  tables <- read_html page_contents ;;
  results_df <- find_results_table tables ;;
  run_date <- getitem results_df (LStr "Run Date") ;;
  run_date <- to_datetime run_date "%d/%m/%Y" ;;
  let results_df := setitem results_df (LStr "Run Date") run_date in
  time <- getitem results_df (LStr "Time") ;;
  time_seconds <- time_seconds_of time ;;
  let results_df := setitem results_df (LStr "time_seconds") time_seconds in
  getitem_list results_df [LStr "Event"; LStr "Run Date"; LStr "time_seconds"].

Definition analyse_results (athlete_id : string) : Run (string * Figure) :=
  _ <~ print ("Anaylsing Parkrun athlete " ++ athlete_id) ;;
  response <~ _request_results_page athlete_id ;;
  _ <~ lift (if negb (status_code response =? 200) then
               if status_code response =? 202 then
                 Raise (RuntimeError "Load page manually and try again")
               else
                 Raise (RuntimeError ("Failed to load page, error code: "
                                        ++ str (status_code response)))
             else Return tt) ;;
  data_frame <~ lift (_parse_results_page (text response)) ;;
  _ <~ print ("Parsed " ++ str (len data_frame) ++ " results") ;;
  _ <~ print "Generating graph" ;;
  _generate_graph data_frame.

End Program.

(* ================================================================== *)
(** ** Predicates of the statements, and sample inputs                 *)
(* ================================================================== *)

(** The column names of a table include "Event", "Run Date" and "Time". *)
Definition has_required_columns (df : DataFrame) : Prop :=
  forall l, In l required_columns -> In l (columns df).

(** A page of two tables: a summary table, then the results with one more
    column than the program needs. *)
Definition sample_tables : list DataFrame :=
  [ [ (LStr "Total runs", [Str "2"]) ];
    [ (LStr "Time", [Str "25:13"; Str "1:05:00"]);
      (LStr "extra", [NaN; NaN]);
      (LStr "Event", [Str "Riverside parkrun"; Str "Riverside parkrun"]);
      (LStr "Run Date", [Str "04/01/2020"; Str "11/01/2020"]) ] ].

(** A page whose only table calls the date column "Date". *)
Definition sample_tables_no_run_date : list DataFrame :=
  [ [ (LStr "Event", [Str "Riverside parkrun"]);
      (LStr "Date", [Str "04/01/2020"]);
      (LStr "Time", [Str "25:13"]) ] ].



(** The request the program sends for an athlete. *)
Definition results_page_request (athlete_id : string) : Request :=
  mkRequest ("https://www.parkrun.org.uk/parkrunner/" ++ athlete_id ++ "/all/")
            session_headers 10.

(** The line the fetcher prints before it sends the request. *)
Definition request_line (athlete_id : string) : string :=
  "Requesting data from " ++ url (results_page_request athlete_id).

(** The lines printed by the time the response is looked at. *)
Definition lines_before_parsing (athlete_id : string) : list string :=
  ["Anaylsing Parkrun athlete " ++ athlete_id; request_line athlete_id].

(** Answers of the server: not found, and a status above the standard
    classes. *)
Definition response_404 : Response := mkResponse 404 "Not Found".
Definition response_999 : Response := mkResponse 999 "Request denied".
Definition response_301 : Response := mkResponse 301 "Moved".

(** The result set of [sample_tables]. *)
Definition sample_results : DataFrame :=
  [ (LStr "Event", [Str "Riverside parkrun"; Str "Riverside parkrun"]);
    (LStr "Run Date", [Timestamp (mkDate 2020 1 4); Timestamp (mkDate 2020 1 11)]);
    (LStr "time_seconds", [Int 1513; Int 3900]) ].

(** The directives of the format the program passes to [to_datetime]. *)
Definition dmy_format : list Directive := [Dir_d; Lit "/"; Dir_m; Lit "/"; Dir_Y].

(** A day as the format accepts it: one or two digits for a number from 1
    to 31, or a blank and a digit from 1 to 9. *)
Definition day_text (t : string) (d : Z) : Prop :=
  (all_digits t = true /\ (1 <= String.length t <= 2)%nat
   /\ digits_value t = d /\ 1 <= d <= 31)
  \/ (exists c, t = String " " (String c "") /\ is_digit c = true
                /\ digit_value c = d /\ 1 <= d <= 9).

(** A month: one or two digits for a number from 1 to 12. *)
Definition month_text (t : string) (m : Z) : Prop :=
  all_digits t = true /\ (1 <= String.length t <= 2)%nat
  /\ digits_value t = m /\ 1 <= m <= 12.

(** A year: four digits. *)
Definition year_text (t : string) (y : Z) : Prop :=
  all_digits t = true /\ String.length t = 4%nat /\ digits_value t = y.

(** [s] is day/month/year, in that order and separated by slashes, and the
    three numbers make a date of the calendar. *)
Definition reads_as_date (s : string) (d : Date) : Prop :=
  exists td tm ty,
    s = td ++ "/" ++ tm ++ "/" ++ ty
    /\ day_text td (day d) /\ month_text tm (month d) /\ year_text ty (year d)
    /\ valid_date (year d) (month d) (day d) = true.

(** A column of values as the table parser leaves them, on a page in
    ASCII: text of characters below code point 128, or the missing value of
    an empty cell. *)
Definition ascii_text_or_missing (s : Series) : Prop :=
  forall c, In c s -> c = NaN \/ exists t, c = Str t /\ isascii t = true.

(** A results table whose second row has an empty "Run Date" cell. *)
Definition sample_tables_missing_date : list DataFrame :=
  [ [ (LStr "Event", [Str "Riverside parkrun"; Str "Riverside parkrun"]);
      (LStr "Run Date", [Str "04/01/2020"; NaN]);
      (LStr "Time", [Str "25:13"; Str "1:05:00"]) ] ].

(** A results table with an ISO date in its second row. *)
Definition sample_tables_iso_date : list DataFrame :=
  [ [ (LStr "Event", [Str "Riverside parkrun"; Str "Riverside parkrun"]);
      (LStr "Run Date", [Str "04/01/2020"; Str "2021-01-01"]);
      (LStr "Time", [Str "25:13"; Str "1:05:00"]) ] ].

(** A network that answers every request with [response_301]. *)
Definition session_get_answer_301 (_ : Request) : Outcome Response :=
  Return response_301.

(** A network that answers every request with status 200. *)
Definition session_get_answer_200 (_ : Request) : Outcome Response :=
  Return (mkResponse 200 "<html>").

(** The chart of [sample_results]. *)
Definition sample_figure : Figure :=
  mkFigure sample_results "Run Date" "time_seconds" "Parkrun results"
           "Date" "Time (minute:seconds)"
           [Int 1513; Int 3900] ["25:13"; "65:00"].

(** Made of digits and colons only. *)
Fixpoint clock_chars (s : string) : bool :=
  match s with
  | EmptyString => true
  | String c s' => (is_digit c || Ascii.eqb c ":") && clock_chars s'
  end.

(** A results table whose second row has an empty "Time" cell. *)
Definition sample_tables_missing_time : list DataFrame :=
  [ [ (LStr "Event", [Str "Riverside parkrun"; Str "Riverside parkrun"]);
      (LStr "Run Date", [Str "04/01/2020"; Str "11/01/2020"]);
      (LStr "Time", [Str "25:13"; NaN]) ] ].

(** The results table of [sample_tables] reduced to the three columns the
    program reads, in another order. *)
Definition sample_table_narrow : DataFrame :=
  [ (LStr "Run Date", [Str "04/01/2020"; Str "11/01/2020"]);
    (LStr "Event", [Str "Riverside parkrun"; Str "Riverside parkrun"]);
    (LStr "Time", [Str "25:13"; Str "1:05:00"]) ].

(* ================================================================== *)
(** ** Strings and digits                                              *)
(* ================================================================== *)

Lemma append_assoc (a b c : string) : (a ++ b) ++ c = a ++ (b ++ c).
Proof. induction a as [|x a IH]; simpl; [reflexivity | now rewrite IH]. Qed.

Lemma append_empty_r (a : string) : a ++ "" = a.
Proof. induction a as [|x a IH]; simpl; [reflexivity | now rewrite IH]. Qed.

Lemma length_append (s t : string) :
  String.length (s ++ t) = (String.length s + String.length t)%nat.
Proof. induction s as [|c s IH]; simpl; [reflexivity | now rewrite IH]. Qed.

Lemma count_append (c : ascii) (a b : string) :
  count c (a ++ b) = (count c a + count c b)%nat.
Proof.
  induction a as [|x a IH]; simpl; [reflexivity |].
  destruct (Ascii.eqb x c); simpl; now rewrite IH.
Qed.

Lemma colon_not_digit (c : ascii) : is_digit c = true -> Ascii.eqb c ":" = false.
Proof.
  intros H. destruct (Ascii.eqb_spec c ":") as [->|]; [discriminate H | reflexivity].
Qed.

Lemma count_colon_digits (s : string) : all_digits s = true -> count ":" s = O.
Proof.
  induction s as [|c s IH]; simpl; [reflexivity |].
  intros H. apply andb_prop in H as [Hc Hs].
  rewrite (colon_not_digit c Hc). now apply IH.
Qed.

Lemma all_digits_append (a b : string) :
  all_digits (a ++ b) = all_digits a && all_digits b.
Proof.
  induction a as [|x a IH]; simpl; [reflexivity |].
  now rewrite IH, andb_assoc.
Qed.

Lemma isascii_append (a b : string) :
  isascii (a ++ b) = isascii a && isascii b.
Proof.
  induction a as [|x a IH]; cbn [append isascii]; [reflexivity |].
  now rewrite IH, andb_assoc.
Qed.

Lemma digit_isascii (c : ascii) : is_digit c = true -> (N_of_ascii c <? 128)%N = true.
Proof.
  unfold is_digit. cbv zeta. intros H. apply andb_prop in H as [_ H].
  apply N.leb_le in H. apply N.ltb_lt. lia.
Qed.

Lemma digits_isascii (s : string) : all_digits s = true -> isascii s = true.
Proof.
  induction s as [|c s IH]; cbn [all_digits isascii]; [reflexivity |].
  intros H. apply andb_prop in H as [Hc Hs].
  now rewrite (digit_isascii c Hc), (IH Hs).
Qed.

Lemma int_digits (s : string) :
  s <> "" -> all_digits s = true -> int s = Return (digits_value s).
Proof.
  intros Hne Hd. destruct s as [|c s]; [congruence |].
  unfold int. now rewrite Hd.
Qed.

Lemma int_limited_digits (s : string) :
  s <> "" -> all_digits s = true -> (String.length s <= int_max_str_digits)%nat ->
  int_limited s = Return (digits_value s).
Proof.
  intros Hne Hd Hl. unfold int_limited.
  apply Nat.leb_le in Hl. rewrite Hl. now apply int_digits.
Qed.

(** Too many digits are the only way the conversion of a field fails. *)
Lemma int_limited_cases (s : string) :
  s <> "" -> all_digits s = true ->
  int_limited s = Return (digits_value s) \/ int_limited s = Raise ValueError.
Proof.
  intros Hne Hd. unfold int_limited.
  destruct (String.length s <=? int_max_str_digits)%nat; [| now right].
  left. now apply int_digits.
Qed.

(* ================================================================== *)
(** ** Sequencing                                                      *)
(* ================================================================== *)

Lemma mapM_Return {A B} (f : A -> Outcome B) (l : list A) (l' : list B) :
  mapM f l = Return l' <-> Forall2 (fun x y => f x = Return y) l l'.
Proof.
  revert l'. induction l as [|x l IH]; intros l'; simpl.
  - split; intros H.
    + injection H as <-. constructor.
    + inversion H. reflexivity.
  - split; intros H.
    + destruct (f x) as [y| |] eqn:Hx; simpl in H; try discriminate.
      destruct (mapM f l) as [ys| |] eqn:Hl; simpl in H; try discriminate.
      injection H as <-. constructor; [exact Hx | now apply IH].
    + inversion H as [|x0 y l0 ys Hx Hl]; subst.
      rewrite Hx. simpl. apply IH in Hl. rewrite Hl. reflexivity.
Qed.

Lemma bind_Return {A B} (c : Outcome A) (k : A -> Outcome B) (b : B) :
  (x <- c ;; k x) = Return b <-> exists a, c = Return a /\ k a = Return b.
Proof.
  destruct c as [a| |]; simpl; split.
  - intros H. now exists a.
  - intros [a' [[= <-] H]]. exact H.
  - discriminate.
  - intros [a' [[=] _]].
  - discriminate.
  - intros [a' [[=] _]].
Qed.

Lemma Forall2_compose {A B C} (R : A -> B -> Prop) (S : B -> C -> Prop)
      (l : list A) (n : list C) :
  (exists k, Forall2 R l k /\ Forall2 S k n)
  <-> Forall2 (fun x z => exists y, R x y /\ S y z) l n.
Proof.
  split.
  - intros [k [H1 H2]]. revert n H2.
    induction H1 as [|x y l k Hxy _ IH]; intros n H2; inversion H2; subst.
    + constructor.
    + constructor; [now exists y | now apply IH].
  - induction 1 as [|x z l n [y [Hxy Hyz]] _ [k [H1 H2]]].
    + exists []. split; constructor.
    + exists (y :: k). split; now constructor.
Qed.

Lemma Forall2_iff {A B} (R S : A -> B -> Prop) (l : list A) (k : list B) :
  (forall x y, R x y <-> S x y) -> Forall2 R l k <-> Forall2 S l k.
Proof.
  intros H. split; induction 1; constructor; try assumption; now apply H.
Qed.

Lemma Forall2_nth_error {A B} (R : A -> B -> Prop) (l : list A) (k : list B)
      (i : nat) (x : A) :
  Forall2 R l k -> nth_error l i = Some x ->
  exists y, nth_error k i = Some y /\ R x y.
Proof.
  intros H. revert i. induction H as [|a b l k Hab _ IH]; intros i Hi.
  - destruct i; discriminate.
  - destruct i as [|i]; simpl in *.
    + injection Hi as ->. now exists b.
    + now apply IH.
Qed.

(* ================================================================== *)
(** ** Clock strings                                                   *)
(* ================================================================== *)

(** A run of digits is gathered into the current field. *)
Lemma scan_digits (d rest : string) (st : Scan) :
  all_digits d = true ->
  scan st (d ++ rest)
  = scan (mkScan (current_unit st) (result st) (number st ++ d) (mult st)) rest.
Proof.
  revert st. induction d as [|c d IH]; intros st Hd; simpl.
  - rewrite append_empty_r. now destruct st.
  - simpl in Hd. apply andb_prop in Hd as [Hc Hd].
    unfold scan_char at 1. rewrite Hc. simpl.
    rewrite (IH _ Hd). simpl. now rewrite append_assoc.
Qed.

Lemma digits_value_from_nonneg (s : string) (acc : Z) :
  all_digits s = true -> 0 <= acc -> 0 <= digits_value_from acc s.
Proof.
  revert acc. induction s as [|c s IH]; intros acc Hd Hacc;
    cbn [digits_value_from]; [exact Hacc |].
  cbn [all_digits] in Hd. apply andb_prop in Hd as [Hc Hd]. apply IH; [exact Hd |].
  unfold is_digit in Hc. cbv zeta in Hc. apply andb_prop in Hc as [Hlo _].
  apply N.leb_le in Hlo. unfold digit_value. lia.
Qed.

Lemma digits_value_nonneg (s : string) :
  all_digits s = true -> 0 <= digits_value s.
Proof. intros Hd. apply digits_value_from_nonneg; [exact Hd | lia]. Qed.

(** A value out of bounds is the only way the addition of a field fails. *)
Lemma add_field_cases (r n m : Z) :
  add_field r n m = Return (r + n * m) \/ add_field r n m = Raise ValueError.
Proof.
  unfold add_field, checked.
  destruct (fits_int64 n); [| now right]. cbn [bind].
  destruct (fits_int64 (n * m)); [| now right]. cbn [bind].
  destruct (fits_int64 (r + n * m)); [now left | now right].
Qed.

Lemma add_field_fits (r n m : Z) :
  0 <= r -> 0 <= n -> 1 <= m -> r + n * m <= int64_max ->
  add_field r n m = Return (r + n * m).
Proof.
  intros Hr Hn Hm Hmax.
  assert (Hfits : forall z, 0 <= z <= int64_max -> fits_int64 z = true).
  { intros z Hz. unfold fits_int64, int64_min.
    apply andb_true_intro. split; apply Z.leb_le; unfold int64_max in *; lia. }
  unfold add_field, checked.
  rewrite (Hfits n) by nia. cbn [bind].
  rewrite (Hfits (n * m)) by nia. cbn [bind].
  now rewrite (Hfits (r + n * m)) by nia.
Qed.

(** A colon after a non-empty field closes the field. *)
Lemma scan_colon (d rest : string) (u : option ClockUnit) (r k : Z) :
  d <> "" ->
  scan (mkScan u r d k) (String ":" rest)
  = let um := match u with
              | None => (U_h, 1000000000 * 3600)
              | Some U_h => (U_m, 1000000000 * 60)
              | Some U_m => (U_s, 1000000000)
              | Some U_s => (U_s, k)
              end in
    n <- int_limited d ;;
    total <- add_field r n (snd um) ;;
    scan (mkScan (Some (fst um)) total "" (snd um)) rest.
Proof.
  intros Hne. cbn [scan]. unfold scan_char.
  cbn [number current_unit result mult]. simpl is_digit. simpl Ascii.eqb.
  cbv iota. destruct d as [|c d]; [congruence |]. cbv zeta.
  destruct (int_limited (String c d)) as [n| |]; cbn [bind]; try reflexivity.
  destruct (add_field r n _); reflexivity.
Qed.

(** Hours, minutes and seconds, each a non-empty run of digits within
    the limit of [int], of a duration below [exact_seconds_limit]. *)
Lemma parse_clock (h mi s : string) :
  h <> "" -> mi <> "" -> s <> "" ->
  all_digits h = true -> all_digits mi = true -> all_digits s = true ->
  (String.length h <= int_max_str_digits)%nat ->
  (String.length mi <= int_max_str_digits)%nat ->
  (String.length s <= int_max_str_digits)%nat ->
  (digits_value h * 3600 + digits_value mi * 60 + digits_value s) * 1000000000
  < exact_seconds_limit ->
  parse_timedelta_string (h ++ ":" ++ mi ++ ":" ++ s)
  = Return ((digits_value h * 3600 + digits_value mi * 60 + digits_value s)
            * 1000000000).
Proof.
  intros Hh Hm Hs Dh Dm Ds Lh Lm Ls Hlim.
  pose proof (digits_value_nonneg h Dh) as Ph.
  pose proof (digits_value_nonneg mi Dm) as Pm.
  pose proof (digits_value_nonneg s Ds) as Ps.
  unfold exact_seconds_limit in Hlim.
  unfold parse_timedelta_string, scan_start.
  rewrite (scan_digits h _ _ Dh). cbn [number current_unit result mult append].
  change (":" ++ mi ++ ":" ++ s) with (String ":" (mi ++ String ":" s)).
  rewrite (scan_colon h _ _ _ _ Hh). cbv zeta. cbn [fst snd].
  rewrite (int_limited_digits h Hh Dh Lh). cbn [bind].
  rewrite add_field_fits by (unfold int64_max; lia). cbn [bind].
  rewrite (scan_digits mi _ _ Dm). cbn [number current_unit result mult append].
  rewrite (scan_colon mi _ _ _ _ Hm). cbv zeta. cbn [fst snd].
  rewrite (int_limited_digits mi Hm Dm Lm). cbn [bind].
  rewrite add_field_fits by (unfold int64_max; lia). cbn [bind].
  rewrite <- (append_empty_r s) at 1.
  rewrite (scan_digits s _ _ Ds). cbn [number current_unit result mult append scan bind].
  unfold scan_end. cbn [current_unit number result].
  rewrite (int_limited_digits s Hs Ds Ls). cbn [bind].
  rewrite add_field_fits by (unfold int64_max; lia). cbn [bind].
  unfold exact_seconds_limit.
  match goal with |- (if ?c then _ else _) = _ => replace c with true end.
  - f_equal. lia.
  - symmetry. apply Z.ltb_lt. lia.
Qed.

(** The seconds of one row: what its time string, once normalised, denotes
    as a duration. *)
Lemma seconds_of_cell (c o : Cell) :
  (exists y3, (exists y2, (exists y1, apply_cell _normalise_time_string c = Return y1
                                       /\ to_timedelta_cell y1 = Return y2)
                           /\ total_seconds_cell y2 = Return y3)
              /\ astype_int_cell y3 = Return o)
  <-> exists s ns, c = Str s
                   /\ parse_timedelta_string (_normalise_time_string s) = Return ns
                   /\ o = Int (Z.quot ns 1000000000).
Proof.
  split.
  - intros [y3 [[y2 [[y1 [H1 H2]] H3]] H4]].
    destruct c; simpl in H1; try discriminate. injection H1 as <-.
    simpl in H2. apply bind_Return in H2 as [ns [Hns [= <-]]].
    simpl in H3. injection H3 as <-. simpl in H4. injection H4 as <-.
    now exists s, ns.
  - intros [s [ns [-> [Hns ->]]]].
    exists (Seconds ns). split; [| reflexivity].
    exists (Timedelta ns). split; [| reflexivity].
    exists (Str (_normalise_time_string s)). split; [reflexivity |].
    simpl. now rewrite Hns.
Qed.

(** The seconds column, row by row. *)
Lemma time_seconds_of_rows (time out : Series) :
  time_seconds_of time = Return out
  <-> Forall2 (fun c o => exists s ns,
                   c = Str s
                   /\ parse_timedelta_string (_normalise_time_string s) = Return ns
                   /\ o = Int (Z.quot ns 1000000000)) time out.
Proof.
  unfold time_seconds_of, apply, to_timedelta, total_seconds, astype_int.
  rewrite <- (Forall2_iff _ _ time out seconds_of_cell).
  split.
  - intros H.
    apply bind_Return in H as [t1 [H1 H]].
    apply bind_Return in H as [t2 [H2 H]].
    apply bind_Return in H as [t3 [H3 H4]].
    apply mapM_Return in H1, H2, H3, H4.
    apply Forall2_compose. exists t3. split; [| exact H4].
    apply Forall2_compose. exists t2. split; [| exact H3].
    apply Forall2_compose. exists t1. now split.
  - intros H.
    apply Forall2_compose in H as [t3 [H H4]].
    apply Forall2_compose in H as [t2 [H H3]].
    apply Forall2_compose in H as [t1 [H1 H2]].
    apply mapM_Return in H1, H2, H3, H4.
    rewrite H1. simpl. rewrite H2. simpl. rewrite H3. simpl. exact H4.
Qed.

(** The seconds of a row are fixed by the time string of that row. *)
Lemma time_seconds_of_row (time out : Series) (i : nat) (t : string) (ns : Z) :
  time_seconds_of time = Return out ->
  nth_error time i = Some (Str t) ->
  parse_timedelta_string (_normalise_time_string t) = Return ns ->
  nth_error out i = Some (Int (Z.quot ns 1000000000)).
Proof.
  intros H Hi Hns. apply time_seconds_of_rows in H.
  destruct (Forall2_nth_error _ _ _ _ _ H Hi) as [o [Ho [s' [ns' [[= <-] [Hp ->]]]]]].
  rewrite Hns in Hp. injection Hp as <-. exact Ho.
Qed.

Lemma normalise_one_colon (t : string) :
  count ":" t = 1%nat -> _normalise_time_string t = "00:" ++ t.
Proof. intros H. unfold _normalise_time_string. now rewrite H. Qed.

Lemma normalise_not_one_colon (t : string) :
  count ":" t <> 1%nat -> _normalise_time_string t = t.
Proof.
  intros H. unfold _normalise_time_string.
  destruct (Nat.eqb_spec (count ":" t) 1); [contradiction | reflexivity].
Qed.

Lemma count_minutes_seconds (mi s : string) :
  all_digits mi = true -> all_digits s = true ->
  count ":" (mi ++ ":" ++ s) = 1%nat.
Proof.
  intros Dm Ds. rewrite count_append. simpl.
  now rewrite (count_colon_digits mi Dm), (count_colon_digits s Ds).
Qed.

Lemma count_hours_minutes_seconds (h mi s : string) :
  all_digits h = true -> all_digits mi = true -> all_digits s = true ->
  count ":" (h ++ ":" ++ mi ++ ":" ++ s) = 2%nat.
Proof.
  intros Dh Dm Ds.
  pose proof (count_minutes_seconds mi s Dm Ds) as Hms.
  rewrite count_append, (count_colon_digits h Dh).
  simpl in *. now rewrite Hms.
Qed.

(** C1, with the range of the durations.  A time string "M:SS" (minutes
    and seconds, each a non-empty run of ASCII digits no longer than the
    interpreter converts) has exactly one colon; normalisation puts "00:"
    in front of any string with exactly one colon; and when M*60 + SS
    seconds are less than 2^62 nanoseconds, the seconds computed for "M:SS"
    are M*60 + SS, both for a column holding just that string and in its
    row of any column that converts. *)
Theorem minutes_seconds_duration (mi s : string) :
  mi <> "" -> s <> "" -> all_digits mi = true -> all_digits s = true ->
  (String.length mi <= int_max_str_digits)%nat ->
  (String.length s <= int_max_str_digits)%nat ->
  count ":" (mi ++ ":" ++ s) = 1%nat
  /\ (forall t, count ":" t = 1%nat -> _normalise_time_string t = "00:" ++ t)
  /\ _normalise_time_string (mi ++ ":" ++ s) = "00:" ++ mi ++ ":" ++ s
  /\ ((digits_value mi * 60 + digits_value s) * 1000000000 < exact_seconds_limit ->
      time_seconds_of [Str (mi ++ ":" ++ s)]
      = Return [Int (digits_value mi * 60 + digits_value s)]
      /\ (forall time out i,
             time_seconds_of time = Return out ->
             nth_error time i = Some (Str (mi ++ ":" ++ s)) ->
             nth_error out i = Some (Int (digits_value mi * 60 + digits_value s)))).
Proof.
  intros Hm Hs Dm Ds Lm Ls.
  pose proof (count_minutes_seconds mi s Dm Ds) as Hc.
  pose proof (normalise_one_colon _ Hc) as Hn.
  split; [exact Hc |]. split; [exact normalise_one_colon |]. split; [exact Hn |].
  intros Hlim.
  assert (Hp : parse_timedelta_string (_normalise_time_string (mi ++ ":" ++ s))
               = Return ((digits_value mi * 60 + digits_value s) * 1000000000)).
  { rewrite Hn.
    change ("00:" ++ mi ++ ":" ++ s) with ("00" ++ ":" ++ mi ++ ":" ++ s).
    rewrite (parse_clock "00" mi s); try assumption; try discriminate;
      try reflexivity.
    unfold int_max_str_digits. apply Nat.leb_le. reflexivity. }
  assert (Hq : Z.quot ((digits_value mi * 60 + digits_value s) * 1000000000)
                      1000000000
               = digits_value mi * 60 + digits_value s)
    by (apply Z.quot_mul; discriminate).
  split.
  - apply time_seconds_of_rows. constructor; [| constructor].
    eexists _, _. split; [reflexivity |]. split; [exact Hp |]. now rewrite Hq.
  - intros time out i H Hi. rewrite <- Hq.
    exact (time_seconds_of_row time out i _ _ H Hi Hp).
Qed.

Lemma minutes_seconds_duration_witness :
  "25" <> "" /\ "13" <> "" /\ all_digits "25" = true /\ all_digits "13" = true
  /\ (String.length "25" <= int_max_str_digits)%nat
  /\ (String.length "13" <= int_max_str_digits)%nat
  /\ (digits_value "25" * 60 + digits_value "13") * 1000000000 < exact_seconds_limit
  /\ _normalise_time_string "25:13" = "00:25:13"
  /\ time_seconds_of [Str "25:13"] = Return [Int 1513].
Proof.
  assert (H1 : "25" <> "") by discriminate.
  assert (H2 : "13" <> "") by discriminate.
  assert (H3 : all_digits "25" = true) by reflexivity.
  assert (H4 : all_digits "13" = true) by reflexivity.
  assert (H5 : (digits_value "25" * 60 + digits_value "13") * 1000000000
               < exact_seconds_limit) by reflexivity.
  assert (L1 : (String.length "25" <= int_max_str_digits)%nat)
    by (apply Nat.leb_le; reflexivity).
  assert (L2 : (String.length "13" <= int_max_str_digits)%nat)
    by (apply Nat.leb_le; reflexivity).
  pose proof (minutes_seconds_duration "25" "13" H1 H2 H3 H4 L1 L2) as H.
  exact (conj H1 (conj H2 (conj H3 (conj H4 (conj L1 (conj L2 (conj H5
           (conj (proj1 (proj2 (proj2 H)))
                 (proj1 (proj2 (proj2 (proj2 H)) H5)))))))))).
Defined.

(** C1 as stated fails: "153722867:17" has the form "M:SS" and becomes
    "00:153722867:17", but its 9223372037 seconds do not fit in the 64-bit
    nanoseconds of a duration: the sum goes out of bounds at the seconds
    field and the conversion raises instead of returning M*60 + SS. *)
Lemma minutes_seconds_out_of_bounds :
  all_digits "153722867" = true /\ all_digits "17" = true
  /\ _normalise_time_string "153722867:17" = "00:153722867:17"
  /\ digits_value "153722867" * 60 + digits_value "17" = 9223372037
  /\ int64_max < 9223372037 * 1000000000
  /\ time_seconds_of [Str "153722867:17"] = Raise ValueError
  /\ time_seconds_of [Str "153722867:17"]
     <> Return [Int (digits_value "153722867" * 60 + digits_value "17")].
Proof.
  assert (H : time_seconds_of [Str "153722867:17"] = Raise ValueError)
    by (vm_compute; reflexivity).
  do 5 (split; [reflexivity |]).
  split; [exact H |]. rewrite H. discriminate.
Qed.

(** C2, with the range of the durations.  A time string "H:MM:SS" (hours,
    minutes and seconds, each a non-empty run of ASCII digits no longer
    than the interpreter converts) has exactly two colons; normalisation
    returns any string with exactly two colons unchanged; and when
    H*3600 + MM*60 + SS seconds are less than 2^62 nanoseconds, the seconds
    computed for "H:MM:SS" are H*3600 + MM*60 + SS, both for a column
    holding just that string and in its row of any column that converts. *)
Theorem hours_minutes_seconds_duration (h mi s : string) :
  h <> "" -> mi <> "" -> s <> "" ->
  all_digits h = true -> all_digits mi = true -> all_digits s = true ->
  (String.length h <= int_max_str_digits)%nat ->
  (String.length mi <= int_max_str_digits)%nat ->
  (String.length s <= int_max_str_digits)%nat ->
  count ":" (h ++ ":" ++ mi ++ ":" ++ s) = 2%nat
  /\ (forall t, count ":" t = 2%nat -> _normalise_time_string t = t)
  /\ _normalise_time_string (h ++ ":" ++ mi ++ ":" ++ s) = h ++ ":" ++ mi ++ ":" ++ s
  /\ ((digits_value h * 3600 + digits_value mi * 60 + digits_value s) * 1000000000
      < exact_seconds_limit ->
      time_seconds_of [Str (h ++ ":" ++ mi ++ ":" ++ s)]
      = Return [Int (digits_value h * 3600 + digits_value mi * 60 + digits_value s)]
      /\ (forall time out i,
             time_seconds_of time = Return out ->
             nth_error time i = Some (Str (h ++ ":" ++ mi ++ ":" ++ s)) ->
             nth_error out i
             = Some (Int (digits_value h * 3600 + digits_value mi * 60
                          + digits_value s)))).
Proof.
  intros Hh Hm Hs Dh Dm Ds Lh Lm Ls.
  pose proof (count_hours_minutes_seconds h mi s Dh Dm Ds) as Hc.
  assert (Hn : _normalise_time_string (h ++ ":" ++ mi ++ ":" ++ s)
               = h ++ ":" ++ mi ++ ":" ++ s)
    by (apply normalise_not_one_colon; rewrite Hc; discriminate).
  split; [exact Hc |].
  split; [intros t Ht; apply normalise_not_one_colon; rewrite Ht; discriminate |].
  split; [exact Hn |].
  intros Hlim.
  assert (Hp : parse_timedelta_string
                 (_normalise_time_string (h ++ ":" ++ mi ++ ":" ++ s))
               = Return ((digits_value h * 3600 + digits_value mi * 60
                          + digits_value s) * 1000000000))
    by (rewrite Hn; now apply parse_clock).
  assert (Hq : Z.quot ((digits_value h * 3600 + digits_value mi * 60
                        + digits_value s) * 1000000000) 1000000000
               = digits_value h * 3600 + digits_value mi * 60 + digits_value s)
    by (apply Z.quot_mul; discriminate).
  split.
  - apply time_seconds_of_rows. constructor; [| constructor].
    eexists _, _. split; [reflexivity |]. split; [exact Hp |]. now rewrite Hq.
  - intros time out i H Hi. rewrite <- Hq.
    exact (time_seconds_of_row time out i _ _ H Hi Hp).
Qed.

Lemma hours_minutes_seconds_duration_witness :
  "1" <> "" /\ "05" <> "" /\ "00" <> ""
  /\ all_digits "1" = true /\ all_digits "05" = true /\ all_digits "00" = true
  /\ (String.length "1" <= int_max_str_digits)%nat
  /\ (String.length "05" <= int_max_str_digits)%nat
  /\ (String.length "00" <= int_max_str_digits)%nat
  /\ (digits_value "1" * 3600 + digits_value "05" * 60 + digits_value "00")
     * 1000000000 < exact_seconds_limit
  /\ _normalise_time_string "1:05:00" = "1:05:00"
  /\ time_seconds_of [Str "1:05:00"] = Return [Int 3900].
Proof.
  assert (H1 : "1" <> "") by discriminate.
  assert (H2 : "05" <> "") by discriminate.
  assert (H3 : "00" <> "") by discriminate.
  assert (H4 : all_digits "1" = true) by reflexivity.
  assert (H5 : all_digits "05" = true) by reflexivity.
  assert (H6 : all_digits "00" = true) by reflexivity.
  assert (H7 : (digits_value "1" * 3600 + digits_value "05" * 60
                + digits_value "00") * 1000000000 < exact_seconds_limit)
    by reflexivity.
  assert (L1 : (String.length "1" <= int_max_str_digits)%nat)
    by (apply Nat.leb_le; reflexivity).
  assert (L2 : (String.length "05" <= int_max_str_digits)%nat)
    by (apply Nat.leb_le; reflexivity).
  assert (L3 : (String.length "00" <= int_max_str_digits)%nat)
    by (apply Nat.leb_le; reflexivity).
  pose proof (hours_minutes_seconds_duration "1" "05" "00" H1 H2 H3 H4 H5 H6
                                             L1 L2 L3) as H.
  exact (conj H1 (conj H2 (conj H3 (conj H4 (conj H5 (conj H6
           (conj L1 (conj L2 (conj L3 (conj H7
              (conj (proj1 (proj2 (proj2 H)))
                    (proj1 (proj2 (proj2 (proj2 H)) H7))))))))))))).
Defined.

(** C2 as stated fails: "2562047:47:17" has the form "H:MM:SS" and is left
    unchanged, but its 9223372037 seconds do not fit in the 64-bit
    nanoseconds of a duration: the sum goes out of bounds at the seconds
    field and the conversion raises instead of returning
    H*3600 + MM*60 + SS. *)
Lemma hours_minutes_seconds_out_of_bounds :
  all_digits "2562047" = true /\ all_digits "47" = true /\ all_digits "17" = true
  /\ _normalise_time_string "2562047:47:17" = "2562047:47:17"
  /\ digits_value "2562047" * 3600 + digits_value "47" * 60 + digits_value "17"
     = 9223372037
  /\ int64_max < 9223372037 * 1000000000
  /\ time_seconds_of [Str "2562047:47:17"] = Raise ValueError
  /\ time_seconds_of [Str "2562047:47:17"]
     <> Return [Int (digits_value "2562047" * 3600 + digits_value "47" * 60
                     + digits_value "17")].
Proof.
  assert (H : time_seconds_of [Str "2562047:47:17"] = Raise ValueError)
    by (vm_compute; reflexivity).
  do 6 (split; [reflexivity |]).
  split; [exact H |]. rewrite H. discriminate.
Qed.

(** C9.  A time string whose number of colons is neither one nor two (none,
    or more than two) is returned unchanged by the normalisation. *)
Theorem other_colon_counts_unchanged (t : string) :
  count ":" t <> 1%nat -> count ":" t <> 2%nat -> _normalise_time_string t = t.
Proof. intros H1 _. now apply normalise_not_one_colon. Qed.

Lemma other_colon_counts_unchanged_witness :
  count ":" "1:02:03:04" <> 1%nat /\ count ":" "1:02:03:04" <> 2%nat
  /\ _normalise_time_string "1:02:03:04" = "1:02:03:04".
Proof.
  assert (H1 : count ":" "1:02:03:04" <> 1%nat) by discriminate.
  assert (H2 : count ":" "1:02:03:04" <> 2%nat) by discriminate.
  exact (conj H1 (conj H2 (other_colon_counts_unchanged "1:02:03:04" H1 H2))).
Defined.

(* ================================================================== *)
(** ** The choice of the results table                                 *)
(* ================================================================== *)

Lemma label_eqb_eq (a b : Label) : label_eqb a b = true <-> a = b.
Proof.
  destruct a, b; simpl; try (split; [discriminate | intros [=]]).
  - rewrite String.eqb_eq. split; [now intros -> | now intros [=]].
  - rewrite Z.eqb_eq. split; [now intros -> | now intros [=]].
  - destruct (list_eq_dec string_dec parts parts0) as [->|Hne].
    + tauto.
    + split; [discriminate | intros [=]; contradiction].
Qed.

Lemma label_eqb_refl (a : Label) : label_eqb a a = true.
Proof. now apply label_eqb_eq. Qed.

Lemma existsb_label (l : Label) (ls : list Label) :
  existsb (label_eqb l) ls = true <-> In l ls.
Proof.
  rewrite existsb_exists. split.
  - intros [x [Hx Heq]]. apply label_eqb_eq in Heq. now subst.
  - intros H. exists l. split; [exact H | apply label_eqb_refl].
Qed.

(** The test of the loop holds exactly for the tables that have the three
    columns. *)
Lemma issubset_required (df : DataFrame) :
  issubset required_columns (columns df) = true <-> has_required_columns df.
Proof.
  unfold issubset, has_required_columns. rewrite forallb_forall.
  split; intros H l Hl; apply existsb_label; now apply H.
Qed.

Lemma issubset_required_false (df : DataFrame) :
  issubset required_columns (columns df) = false <-> ~ has_required_columns df.
Proof.
  rewrite <- issubset_required.
  destruct (issubset required_columns (columns df)); split; intros H.
  - discriminate.
  - now elim H.
  - intros [=].
  - reflexivity.
Qed.

(** The loop stops at the first table that passes its test. *)
Lemma find_first {A} (p : A -> bool) (l : list A) (x : A) :
  find p l = Some x ->
  exists before after,
    l = (before ++ x :: after)%list /\ p x = true /\ Forall (fun y => p y = false) before.
Proof.
  induction l as [|a l IH]; simpl; [discriminate |].
  destruct (p a) eqn:Ha.
  - intros [= ->]. exists [], l. repeat split; [exact Ha | constructor].
  - intros H. destruct (IH H) as [before [after [-> [Hx Hb]]]].
    exists (a :: before), after. repeat split; [exact Hx | now constructor].
Qed.

(** C3.  When some table of the page has the columns "Event", "Run Date"
    and "Time", the loop returns the first such table in document order:
    it has the three columns, no table before it has, and the page is
    parsed as a page holding that table alone.  Whether a table counts
    depends only on which names occur among its columns, so neither extra
    columns nor the order of the columns matter. *)
Theorem first_results_table_selected (tables : list DataFrame) :
  (exists df, In df tables /\ has_required_columns df) ->
  (exists before t after,
      tables = (before ++ t :: after)%list
      /\ find_results_table tables = Return t
      /\ has_required_columns t
      /\ Forall (fun df => ~ has_required_columns df) before
      /\ (forall read_html page_contents,
             read_html page_contents = Return tables ->
             _parse_results_page read_html page_contents
             = _parse_results_page (fun _ => Return [t]) page_contents))
  /\ (forall df df' : DataFrame,
         incl (columns df) (columns df') ->
         issubset required_columns (columns df) = true ->
         issubset required_columns (columns df') = true)
  /\ (forall df df' : DataFrame,
         Permutation (columns df) (columns df') ->
         issubset required_columns (columns df)
         = issubset required_columns (columns df')).
Proof.
  intros [df [Hin Hreq]]. split; [| split].
  - unfold find_results_table.
    destruct (find (fun df => issubset required_columns (columns df)) tables)
      as [t|] eqn:Hf.
    + destruct (find_first _ _ _ Hf) as [before [after [-> [Ht Hb]]]].
      exists before, t, after. repeat split.
      * now apply issubset_required.
      * eapply Forall_impl; [| exact Hb]. intros a Ha.
        now apply issubset_required_false.
      * intros read_html page_contents Hread.
        unfold _parse_results_page. rewrite Hread. cbn [bind].
        unfold find_results_table. rewrite Hf. cbn [find]. now rewrite Ht.
    + apply issubset_required in Hreq.
      pose proof (find_none _ _ Hf df Hin) as Hn. cbv beta in Hn.
      rewrite Hreq in Hn. discriminate.
  - intros a b Hincl Ha. apply issubset_required. apply issubset_required in Ha.
    intros l Hl. apply Hincl. now apply Ha.
  - intros a b Hp.
    destruct (issubset required_columns (columns b)) eqn:Hb.
    + apply issubset_required. apply issubset_required in Hb.
      intros l Hl. apply Permutation_in with (l := columns b);
        [now apply Permutation_sym | now apply Hb].
    + apply issubset_required_false. apply issubset_required_false in Hb.
      intros Ha. apply Hb. intros l Hl.
      apply Permutation_in with (l := columns a); [exact Hp | now apply Ha].
Qed.

Lemma sample_results_table_required :
  has_required_columns (nth 1 sample_tables []).
Proof. apply issubset_required. reflexivity. Qed.

Lemma first_results_table_selected_witness :
  (exists df, In df sample_tables /\ has_required_columns df)
  /\ (exists before t after,
         sample_tables = (before ++ t :: after)%list
         /\ find_results_table sample_tables = Return t
         /\ has_required_columns t
         /\ Forall (fun df => ~ has_required_columns df) before
         /\ (forall read_html page_contents,
                read_html page_contents = Return sample_tables ->
                _parse_results_page read_html page_contents
                = _parse_results_page (fun _ => Return [t]) page_contents)).
Proof.
  assert (H : exists df, In df sample_tables /\ has_required_columns df).
  { exists (nth 1 sample_tables []). split.
    - right. left. reflexivity.
    - exact sample_results_table_required. }
  exact (conj H (proj1 (first_results_table_selected sample_tables H))).
Defined.





(* ================================================================== *)
(** ** The status of the response                                      *)
(* ================================================================== *)

Section Status.

Variable session_get : Request -> Outcome Response.
Variable read_html : string -> Outcome (list DataFrame).
Variable athlete_id : string.
Variable r : Response.
Hypothesis answered : session_get (results_page_request athlete_id) = Return r.

(** A client or server error status is raised by the fetcher itself. *)
Lemma request_raises :
  400 <= status_code r < 600 ->
  _request_results_page session_get athlete_id
  = ([request_line athlete_id], Raise (HTTPError r)).
Proof.
  intros Hs. unfold _request_results_page.
  fold (results_page_request athlete_id). rewrite answered.
  unfold bind_run, print, lift. cbn [fst snd app].
  unfold raise_for_status.
  destruct ((400 <=? status_code r) && (status_code r <? 500)) eqn:H4;
    [reflexivity |].
  destruct ((500 <=? status_code r) && (status_code r <? 600)) eqn:H5;
    [reflexivity |].
  apply andb_false_iff in H4, H5. lia.
Qed.

(** Any other status is handed to the caller. *)
Lemma request_returns :
  status_code r < 400 \/ 600 <= status_code r ->
  _request_results_page session_get athlete_id
  = ([request_line athlete_id], Return r).
Proof.
  intros Hs. unfold _request_results_page.
  fold (results_page_request athlete_id). rewrite answered.
  unfold bind_run, print, lift. cbn [fst snd app].
  unfold raise_for_status.
  destruct ((400 <=? status_code r) && (status_code r <? 500)) eqn:H4.
  { apply andb_prop in H4. lia. }
  destruct ((500 <=? status_code r) && (status_code r <? 600)) eqn:H5.
  { apply andb_prop in H5. lia. }
  reflexivity.
Qed.

Lemma analyse_error_status :
  400 <= status_code r < 600 ->
  analyse_results session_get read_html athlete_id
  = (lines_before_parsing athlete_id, Raise (HTTPError r)).
Proof.
  intros Hs. unfold analyse_results. rewrite (request_raises Hs). reflexivity.
Qed.

Lemma analyse_200 :
  status_code r = 200 ->
  analyse_results session_get read_html athlete_id
  = (_ <~ (lines_before_parsing athlete_id, Return tt) ;;
     data_frame <~ lift (_parse_results_page read_html (text r)) ;;
     _ <~ print ("Parsed " ++ str (len data_frame) ++ " results") ;;
     _ <~ print "Generating graph" ;;
     _generate_graph data_frame).
Proof.
  intros Hs. unfold analyse_results.
  rewrite request_returns by lia.
  unfold bind_run at 1 2 3. unfold print at 1. cbn [fst snd app].
  rewrite Hs. reflexivity.
Qed.

Lemma analyse_202 :
  status_code r = 202 ->
  analyse_results session_get read_html athlete_id
  = (lines_before_parsing athlete_id,
     Raise (RuntimeError "Load page manually and try again")).
Proof.
  intros Hs. unfold analyse_results.
  rewrite request_returns by lia.
  unfold bind_run at 1 2 3. unfold print at 1. cbn [fst snd app].
  rewrite Hs. reflexivity.
Qed.

Lemma analyse_other_status :
  status_code r <> 200 -> status_code r <> 202 ->
  status_code r < 400 \/ 600 <= status_code r ->
  analyse_results session_get read_html athlete_id
  = (lines_before_parsing athlete_id,
     Raise (RuntimeError ("Failed to load page, error code: "
                            ++ str (status_code r)))).
Proof.
  intros H200 H202 Hs. unfold analyse_results.
  rewrite (request_returns Hs).
  unfold bind_run, print, lift. cbn [fst snd app].
  destruct (Z.eqb_spec (status_code r) 200); [contradiction |].
  destruct (Z.eqb_spec (status_code r) 202); [contradiction |].
  reflexivity.
Qed.

End Status.

(** C5, as the code has it.  For the response the server gives: status 200
    goes on to parsing and charting; status 202 raises "Load page manually
    and try again"; a status from 400 to 599 is raised by the fetcher as
    the HTTP library's error, which carries the response and its status;
    every other status raises "Failed to load page, error code: " followed
    by the status. *)
Theorem status_code_handling
        (session_get : Request -> Outcome Response)
        (read_html : string -> Outcome (list DataFrame))
        (athlete_id : string) (r : Response) :
  session_get (results_page_request athlete_id) = Return r ->
  (status_code r = 200 ->
   analyse_results session_get read_html athlete_id
   = (_ <~ (lines_before_parsing athlete_id, Return tt) ;;
      data_frame <~ lift (_parse_results_page read_html (text r)) ;;
      _ <~ print ("Parsed " ++ str (len data_frame) ++ " results") ;;
      _ <~ print "Generating graph" ;;
      _generate_graph data_frame))
  /\ (status_code r = 202 ->
      analyse_results session_get read_html athlete_id
      = (lines_before_parsing athlete_id,
         Raise (RuntimeError "Load page manually and try again")))
  /\ (400 <= status_code r < 600 ->
      analyse_results session_get read_html athlete_id
      = (lines_before_parsing athlete_id, Raise (HTTPError r)))
  /\ (status_code r <> 200 -> status_code r <> 202 ->
      status_code r < 400 \/ 600 <= status_code r ->
      analyse_results session_get read_html athlete_id
      = (lines_before_parsing athlete_id,
         Raise (RuntimeError ("Failed to load page, error code: "
                                ++ str (status_code r))))).
Proof.
  intros Ha. repeat split.
  - now apply analyse_200.
  - now apply analyse_202.
  - now apply analyse_error_status.
  - now apply analyse_other_status.
Qed.

Lemma status_code_handling_witness :
  analyse_results (fun _ => Return response_301) (fun _ => Return sample_tables)
                  "1234"
  = (lines_before_parsing "1234",
     Raise (RuntimeError "Failed to load page, error code: 301")).
Proof.
  refine (proj2 (proj2 (proj2
           (status_code_handling (fun _ => Return response_301)
                                 (fun _ => Return sample_tables)
                                 "1234" response_301 eq_refl))) _ _ _).
  - discriminate.
  - discriminate.
  - left. reflexivity.
Defined.

(** C5 as stated fails: status 404 is neither 200 nor 202, yet the program
    does not raise "Failed to load page, error code: 404"; the fetcher's
    own error leaves the program. *)
Lemma generic_error_not_raised_for_404 :
  status_code response_404 <> 200
  /\ status_code response_404 <> 202
  /\ snd (analyse_results (fun _ => Return response_404)
                          (fun _ => Return sample_tables) "1234")
     = Raise (HTTPError response_404)
  /\ snd (analyse_results (fun _ => Return response_404)
                          (fun _ => Return sample_tables) "1234")
     <> Raise (RuntimeError ("Failed to load page, error code: "
                               ++ str (status_code response_404))).
Proof.
  repeat split; try discriminate.
Qed.

(** C10, as the code has it.  For a response with a status from 400 to 599
    the fetcher raises the HTTP library's error instead of returning the
    response, so the program ends with that error and with no
    [RuntimeError]; a response with any other status is returned to the
    caller, whose "Failed to load page" branch runs when that status is
    neither 200 nor 202. *)
Theorem fetcher_raises_for_error_status
        (session_get : Request -> Outcome Response)
        (read_html : string -> Outcome (list DataFrame))
        (athlete_id : string) (r : Response) :
  session_get (results_page_request athlete_id) = Return r ->
  (400 <= status_code r < 600 ->
   snd (_request_results_page session_get athlete_id) = Raise (HTTPError r)
   /\ snd (analyse_results session_get read_html athlete_id)
      = Raise (HTTPError r)
   /\ forall msg, snd (analyse_results session_get read_html athlete_id)
                  <> Raise (RuntimeError msg))
  /\ (status_code r < 400 \/ 600 <= status_code r ->
      snd (_request_results_page session_get athlete_id) = Return r
      /\ (status_code r <> 200 -> status_code r <> 202 ->
          snd (analyse_results session_get read_html athlete_id)
          = Raise (RuntimeError ("Failed to load page, error code: "
                                   ++ str (status_code r))))).
Proof.
  intros Ha. split.
  - intros Hs.
    rewrite (request_raises session_get athlete_id r Ha Hs).
    rewrite (analyse_error_status session_get read_html athlete_id r Ha Hs).
    cbn [snd]. repeat split. intros msg. discriminate.
  - intros Hs. rewrite (request_returns session_get athlete_id r Ha Hs).
    split; [reflexivity |]. intros H200 H202.
    now rewrite (analyse_other_status session_get read_html athlete_id r
                   Ha H200 H202 Hs).
Qed.

Lemma fetcher_raises_for_error_status_witness :
  400 <= status_code response_404 < 600
  /\ snd (_request_results_page (fun _ => Return response_404) "1234")
     = Raise (HTTPError response_404).
Proof.
  assert (Hs : 400 <= status_code response_404 < 600) by (simpl; lia).
  exact (conj Hs
           (proj1 (proj1 (fetcher_raises_for_error_status
                            (fun _ => Return response_404)
                            (fun _ => Return sample_tables)
                            "1234" response_404 eq_refl) Hs))).
Defined.

(** C10 as stated fails: status 999 is above 400, yet the fetcher returns
    the response and the caller's "Failed to load page" branch runs. *)
Lemma fetcher_returns_status_999 :
  400 <= status_code response_999
  /\ snd (_request_results_page (fun _ => Return response_999) "1234")
     = Return response_999
  /\ snd (analyse_results (fun _ => Return response_999)
                          (fun _ => Return sample_tables) "1234")
     = Raise (RuntimeError "Failed to load page, error code: 999").
Proof.
  repeat split. discriminate.
Qed.

(* ================================================================== *)
(** ** Dates                                                           *)
(* ================================================================== *)

Lemma digits_value_1 (a : ascii) : digits_value (String a "") = digit_value a.
Proof. unfold digits_value. cbn [digits_value_from]. lia. Qed.

Lemma digits_value_2 (a b : ascii) :
  digits_value (String a (String b "")) = 10 * digit_value a + digit_value b.
Proof. unfold digits_value. cbn [digits_value_from]. lia. Qed.

Lemma in_range_bounds (lo hi c : ascii) :
  in_class (Range lo hi) c = true ->
  (N_of_ascii lo <= N_of_ascii c <= N_of_ascii hi)%N.
Proof.
  simpl. intros H. apply andb_prop in H as [H1 H2].
  apply N.leb_le in H1, H2. now split.
Qed.

Lemma in_char (a c : ascii) : in_class (Char a) c = true -> c = a.
Proof. simpl. intros H. apply Ascii.eqb_eq in H. now subst. Qed.

Lemma is_digit_bounds (c : ascii) :
  is_digit c = true <-> (48 <= N_of_ascii c <= 57)%N.
Proof.
  unfold is_digit. cbv zeta. rewrite andb_true_iff, !N.leb_le. tauto.
Qed.

Lemma digit_value_code (c : ascii) : digit_value c = Z.of_N (N_of_ascii c) - 48.
Proof. reflexivity. Qed.

Lemma group_value_digit (c : ascii) (t : string) :
  is_digit c = true -> group_value (String c t) = digits_value (String c t).
Proof.
  intros H. simpl. destruct (Ascii.eqb_spec c " ") as [->|]; [discriminate H | reflexivity].
Qed.

Lemma first_success_Some {A B} (f : A -> option B) (l : list A) (y : B) :
  first_success f l = Some y -> exists x, In x l /\ f x = Some y.
Proof.
  induction l as [|a l IH]; simpl; [discriminate |].
  destruct (f a) as [b|] eqn:Ha.
  - intros [= <-]. exists a. split; [now left | exact Ha].
  - intros H. destruct (IH H) as [x [Hx Hf]]. exists x. split; [now right | exact Hf].
Qed.

(** An alternative that matches splits the string into the text it
    consumes, character by character in its classes, and the rest. *)
Lemma match_classes_Some (ks : list CharClass) (s t r : string) :
  match_classes ks s = Some (t, r) ->
  s = t ++ r
  /\ Forall2 (fun k c => in_class k c = true) ks (list_ascii_of_string t).
Proof.
  revert s t. induction ks as [|k ks IH]; intros s t; simpl.
  - intros [= <- <-]. split; [reflexivity | constructor].
  - destruct s as [|c s]; [discriminate |].
    destruct (in_class k c) eqn:Hk; [| discriminate].
    destruct (match_classes ks s) as [[t' r']|] eqn:Hm; [| discriminate].
    intros [= <- <-]. destruct (IH _ _ Hm) as [-> HF].
    split; [reflexivity |]. simpl. now constructor.
Qed.

Lemma alternatives_In (d : Directive) (s t r : string) :
  In (t, r) (alternatives d s) ->
  exists ks, In ks (pattern d) /\ match_classes ks s = Some (t, r).
Proof.
  unfold alternatives. rewrite in_flat_map. intros [ks [Hks Hin]].
  exists ks. split; [exact Hks |].
  destruct (match_classes ks s) as [p|]; [| contradiction].
  destruct Hin as [-> | []]. reflexivity.
Qed.

Lemma match_directives_cons (d : Directive) (ds : list Directive) (s : string)
      (f f' : Fields) (rest : string) :
  match_directives (d :: ds) s f = Some (f', rest) ->
  exists t r ks,
    In ks (pattern d)
    /\ s = t ++ r
    /\ Forall2 (fun k c => in_class k c = true) ks (list_ascii_of_string t)
    /\ match_directives ds r (record_group d t f) = Some (f', rest).
Proof.
  simpl. intros H. apply first_success_Some in H as [[t r] [Hin Hm]].
  apply alternatives_In in Hin as [ks [Hks Hc]].
  apply match_classes_Some in Hc as [-> HF].
  now exists t, r, ks.
Qed.

Lemma two_chars (k1 k2 : CharClass) (t : string) :
  Forall2 (fun k c => in_class k c = true) [k1; k2] (list_ascii_of_string t) ->
  exists a b, t = String a (String b "")
              /\ in_class k1 a = true /\ in_class k2 b = true.
Proof.
  destruct t as [|a [|b [|c t]]]; simpl; intros H; inversion H as [|? ? ? ? Ha H']; subst;
    inversion H' as [|? ? ? ? Hb H'']; subst; inversion H''.
  now exists a, b.
Qed.

Lemma one_char (k1 : CharClass) (t : string) :
  Forall2 (fun k c => in_class k c = true) [k1] (list_ascii_of_string t) ->
  exists a, t = String a "" /\ in_class k1 a = true.
Proof.
  destruct t as [|a [|b t]]; simpl; intros H; inversion H as [|? ? ? ? Ha H']; subst;
    inversion H'.
  now exists a.
Qed.

Ltac class_facts :=
  repeat match goal with
    | H : in_class (Char _) _ = true |- _ => apply in_char in H; subst
    | H : in_class (Range _ _) _ = true |- _ =>
        apply in_range_bounds in H; simpl N_of_ascii in H
    | H : in_class digit _ = true |- _ =>
        apply in_range_bounds in H; simpl N_of_ascii in H
    end.

(** The value of a literal digit, computed; the value of any other
    character, by its code. *)
Ltac digit_values :=
  repeat match goal with
    | |- context [digit_value (Ascii ?b0 ?b1 ?b2 ?b3 ?b4 ?b5 ?b6 ?b7)] =>
        let v := eval compute in (digit_value (Ascii b0 b1 b2 b3 b4 b5 b6 b7)) in
        change (digit_value (Ascii b0 b1 b2 b3 b4 b5 b6 b7)) with v
    end;
  rewrite ?digit_value_code.

(** What [%d] consumes is a day. *)
Lemma day_pattern (ks : list CharClass) (t : string) :
  In ks (pattern Dir_d) ->
  Forall2 (fun k c => in_class k c = true) ks (list_ascii_of_string t) ->
  day_text t (group_value t).
Proof.
  simpl. intros [<- | [<- | [<- | [<- | [<- | []]]]]] HF.
  - apply two_chars in HF as [a [b [-> [Ha Hb]]]]. class_facts.
    left. rewrite group_value_digit by reflexivity.
    assert (Db : is_digit b = true) by (apply is_digit_bounds; lia).
    simpl all_digits. cbn [String.length]. rewrite Db, digits_value_2.
    digit_values. repeat split; lia.
  - apply two_chars in HF as [a [b [-> [Ha Hb]]]]. class_facts.
    assert (Da : is_digit a = true) by (apply is_digit_bounds; lia).
    assert (Db : is_digit b = true) by (apply is_digit_bounds; lia).
    left. rewrite (group_value_digit a _ Da).
    simpl all_digits. cbn [String.length]. rewrite Da, Db, digits_value_2.
    digit_values. repeat split; lia.
  - apply two_chars in HF as [a [b [-> [Ha Hb]]]]. class_facts.
    left. rewrite group_value_digit by reflexivity.
    assert (Db : is_digit b = true) by (apply is_digit_bounds; lia).
    simpl all_digits. cbn [String.length]. rewrite Db, digits_value_2.
    digit_values. repeat split; lia.
  - apply one_char in HF as [a [-> Ha]]. class_facts.
    assert (Da : is_digit a = true) by (apply is_digit_bounds; lia).
    left. rewrite (group_value_digit a _ Da).
    simpl all_digits. cbn [String.length]. rewrite Da, digits_value_1.
    digit_values. repeat split; lia.
  - apply two_chars in HF as [a [b [-> [Ha Hb]]]]. class_facts.
    assert (Db : is_digit b = true) by (apply is_digit_bounds; lia).
    right. exists b. simpl group_value. rewrite digits_value_1.
    digit_values. repeat split; try assumption; lia.
Qed.

(** What [%m] consumes is a month. *)
Lemma month_pattern (ks : list CharClass) (t : string) :
  In ks (pattern Dir_m) ->
  Forall2 (fun k c => in_class k c = true) ks (list_ascii_of_string t) ->
  month_text t (group_value t).
Proof.
  simpl. intros [<- | [<- | [<- | []]]] HF.
  - apply two_chars in HF as [a [b [-> [Ha Hb]]]]. class_facts.
    rewrite group_value_digit by reflexivity.
    assert (Db : is_digit b = true) by (apply is_digit_bounds; lia).
    unfold month_text. simpl all_digits. cbn [String.length].
    rewrite Db, digits_value_2. digit_values. repeat split; lia.
  - apply two_chars in HF as [a [b [-> [Ha Hb]]]]. class_facts.
    rewrite group_value_digit by reflexivity.
    assert (Db : is_digit b = true) by (apply is_digit_bounds; lia).
    unfold month_text. simpl all_digits. cbn [String.length].
    rewrite Db, digits_value_2. digit_values. repeat split; lia.
  - apply one_char in HF as [a [-> Ha]]. class_facts.
    assert (Da : is_digit a = true) by (apply is_digit_bounds; lia).
    rewrite (group_value_digit a _ Da).
    unfold month_text. simpl all_digits. cbn [String.length].
    rewrite Da, digits_value_1. digit_values. repeat split; lia.
Qed.

(** What [%Y] consumes is a year. *)
Lemma year_pattern (ks : list CharClass) (t : string) :
  In ks (pattern Dir_Y) ->
  Forall2 (fun k c => in_class k c = true) ks (list_ascii_of_string t) ->
  year_text t (group_value t).
Proof.
  simpl. intros [<- | []] HF.
  destruct t as [|a [|b [|c [|d [|e t]]]]]; simpl in HF;
    inversion HF as [|? ? ? ? Ha H1]; subst;
    inversion H1 as [|? ? ? ? Hb H2]; subst;
    inversion H2 as [|? ? ? ? Hc H3]; subst;
    inversion H3 as [|? ? ? ? Hd H4]; subst;
    inversion H4.
  class_facts.
  assert (Da : is_digit a = true) by (apply is_digit_bounds; lia).
  assert (Db : is_digit b = true) by (apply is_digit_bounds; lia).
  assert (Dc : is_digit c = true) by (apply is_digit_bounds; lia).
  assert (Dd : is_digit d = true) by (apply is_digit_bounds; lia).
  rewrite (group_value_digit a _ Da). unfold year_text. simpl all_digits.
  rewrite Da, Db, Dc, Dd. repeat split.
Qed.

Lemma separator_pattern (ks : list CharClass) (t : string) (c : ascii) :
  In ks (pattern (Lit c)) ->
  Forall2 (fun k c => in_class k c = true) ks (list_ascii_of_string t) ->
  t = String c "".
Proof.
  simpl. intros [<- | []] HF.
  apply one_char in HF as [a [-> Ha]]. now class_facts.
Qed.

(** A date the parser returns is the date the string reads as. *)
Lemma strptime_sound (s : string) (d : Date) :
  strptime s dmy_format = Return d -> reads_as_date s d.
Proof.
  unfold strptime. destruct (isascii s); [| discriminate].
  destruct (match_directives dmy_format s default_fields) as [[f rest]|] eqn:Hm;
    [| discriminate].
  destruct rest; [| discriminate].
  destruct (valid_date (f_year f) (f_month f) (f_day f)) eqn:Hv; [| discriminate].
  intros [= <-]. unfold dmy_format in Hm.
  apply match_directives_cons in Hm as [t1 [r1 [k1 [P1 [-> [F1 Hm]]]]]].
  apply match_directives_cons in Hm as [t2 [r2 [k2 [P2 [-> [F2 Hm]]]]]].
  apply match_directives_cons in Hm as [t3 [r3 [k3 [P3 [-> [F3 Hm]]]]]].
  apply match_directives_cons in Hm as [t4 [r4 [k4 [P4 [-> [F4 Hm]]]]]].
  apply match_directives_cons in Hm as [t5 [r5 [k5 [P5 [-> [F5 Hm]]]]]].
  simpl in Hm. injection Hm as <- ->.
  rewrite (separator_pattern _ _ _ P2 F2), (separator_pattern _ _ _ P4 F4).
  simpl in Hv. simpl.
  exists t1, t3, t5. rewrite append_empty_r. simpl.
  split; [reflexivity |].
  split; [now apply (day_pattern k1) |].
  split; [now apply (month_pattern k3) |].
  split; [now apply (year_pattern k5) | exact Hv].
Qed.

Lemma is_digit_cases (c : ascii) :
  is_digit c = true ->
  In c ["0"; "1"; "2"; "3"; "4"; "5"; "6"; "7"; "8"; "9"]%char.
Proof.
  intros H. apply is_digit_bounds in H.
  rewrite <- (ascii_N_embedding c).
  assert (E : (N_of_ascii c = 48 \/ N_of_ascii c = 49 \/ N_of_ascii c = 50
               \/ N_of_ascii c = 51 \/ N_of_ascii c = 52 \/ N_of_ascii c = 53
               \/ N_of_ascii c = 54 \/ N_of_ascii c = 55 \/ N_of_ascii c = 56
               \/ N_of_ascii c = 57)%N) by lia.
  simpl.
  destruct E as [E|[E|[E|[E|[E|[E|[E|[E|[E|E]]]]]]]]]; rewrite E; tauto.
Qed.

Lemma in_class_digit (c : ascii) : in_class digit c = is_digit c.
Proof. reflexivity. Qed.

(** The number of a literal string of digits, computed. *)
Ltac literal_values :=
  repeat match goal with
    | H : context [digits_value ?s] |- _ =>
        let v := eval vm_compute in (digits_value s) in
        change (digits_value s) with v in H
    | H : context [digit_value ?c] |- _ =>
        let v := eval vm_compute in (digit_value c) in
        change (digit_value c) with v in H
    end.

Ltac each_digit c H :=
  apply is_digit_cases in H; simpl in H;
  destruct H as [H|[H|[H|[H|[H|[H|[H|[H|[H|[H|[]]]]]]]]]]]; subst c.

(** A day followed by a slash is consumed whole: no shorter alternative of
    [%d] leaves a slash next. *)
Lemma match_day (td rest : string) (d : Z) (ds : list Directive) (f : Fields) :
  day_text td d ->
  match_directives (Dir_d :: Lit "/" :: ds) (td ++ "/" ++ rest) f
  = match_directives ds rest (record_group Dir_d td f).
Proof.
  intros [[Hd [Hl [Hv Hr]]] | [c [-> [Hc [Hv Hr]]]]].
  - destruct td as [|a [|b [|c td]]]; simpl in Hl; try lia;
      simpl in Hd; repeat rewrite andb_true_r in Hd.
    + each_digit a Hd; subst d; literal_values; try lia;
        cbn; destruct (match_directives ds rest _); reflexivity.
    + apply andb_prop in Hd as [Ha Hb].
      each_digit a Ha; each_digit b Hb; subst d; literal_values; try lia;
        cbn; destruct (match_directives ds rest _); reflexivity.
  - each_digit c Hc; subst d; literal_values; try lia;
      cbn; destruct (match_directives ds rest _); reflexivity.
Qed.

Lemma match_month (tm rest : string) (m : Z) (ds : list Directive) (f : Fields) :
  month_text tm m ->
  match_directives (Dir_m :: Lit "/" :: ds) (tm ++ "/" ++ rest) f
  = match_directives ds rest (record_group Dir_m tm f).
Proof.
  intros [Hd [Hl [Hv Hr]]].
  destruct tm as [|a [|b [|c tm]]]; simpl in Hl; try lia;
    simpl in Hd; repeat rewrite andb_true_r in Hd.
  - each_digit a Hd; subst m; literal_values; try lia;
      cbn; destruct (match_directives ds rest _); reflexivity.
  - apply andb_prop in Hd as [Ha Hb].
    each_digit a Ha; each_digit b Hb; subst m; literal_values; try lia;
      cbn; destruct (match_directives ds rest _); reflexivity.
Qed.

Lemma match_year (ty : string) (y : Z) (f : Fields) :
  year_text ty y ->
  match_directives [Dir_Y] ty f = Some (record_group Dir_Y ty f, "").
Proof.
  intros [Hd [Hl Hv]].
  destruct ty as [|a [|b [|c [|d [|e ty]]]]]; simpl in Hl; try lia.
  simpl in Hd. apply andb_prop in Hd as [Ha Hd]. apply andb_prop in Hd as [Hb Hd].
  apply andb_prop in Hd as [Hc Hd]. apply andb_prop in Hd as [Hd _].
  cbn [match_directives alternatives pattern flat_map match_classes].
  rewrite (in_class_digit a), Ha, (in_class_digit b), Hb,
    (in_class_digit c), Hc, (in_class_digit d), Hd. reflexivity.
Qed.

Lemma day_text_value (t : string) (d : Z) : day_text t d -> group_value t = d.
Proof.
  intros [[Hd [Hl [Hv Hr]]] | [c [-> [Hc [Hv Hr]]]]].
  - destruct t as [|a t]; [simpl in Hl; lia |].
    simpl in Hd. apply andb_prop in Hd as [Ha _].
    now rewrite (group_value_digit a t Ha).
  - simpl. now rewrite digits_value_1.
Qed.

Lemma month_text_value (t : string) (m : Z) : month_text t m -> group_value t = m.
Proof.
  intros [Hd [Hl [Hv Hr]]].
  destruct t as [|a t]; [simpl in Hl; lia |].
  simpl in Hd. apply andb_prop in Hd as [Ha _].
  now rewrite (group_value_digit a t Ha).
Qed.

Lemma year_text_value (t : string) (y : Z) : year_text t y -> group_value t = y.
Proof.
  intros [Hd [Hl Hv]].
  destruct t as [|a t]; [discriminate Hl |].
  simpl in Hd. apply andb_prop in Hd as [Ha _].
  now rewrite (group_value_digit a t Ha).
Qed.

Lemma day_text_isascii (t : string) (d : Z) : day_text t d -> isascii t = true.
Proof.
  intros [[Hd _] | [c [-> [Hc _]]]]; [now apply digits_isascii |].
  cbn [isascii]. now rewrite (digit_isascii c Hc).
Qed.

(** The text of a day and of a month in front does not change whether a
    string is ASCII. *)
Lemma isascii_day_month (td tm rest : string) (d m : Z) :
  day_text td d -> month_text tm m ->
  isascii (td ++ "/" ++ tm ++ "/" ++ rest) = isascii rest.
Proof.
  intros Hd [Hm _].
  rewrite isascii_append, (day_text_isascii td d Hd).
  change ("/" ++ tm ++ "/" ++ rest) with (String "/" (tm ++ String "/" rest)).
  cbn [isascii]. rewrite isascii_append, (digits_isascii tm Hm).
  reflexivity.
Qed.

(** A string that reads as a date is ASCII. *)
Lemma reads_as_date_isascii (s : string) (d : Date) :
  reads_as_date s d -> isascii s = true.
Proof.
  intros [td [tm [ty [-> [Hd [Hm [[Hy _] _]]]]]]].
  rewrite (isascii_day_month td tm ty _ _ Hd Hm). now apply digits_isascii.
Qed.

(** A string that reads as a date is parsed to that date. *)
Lemma strptime_complete (s : string) (d : Date) :
  reads_as_date s d -> strptime s dmy_format = Return d.
Proof.
  intros Hr. pose proof (reads_as_date_isascii s d Hr) as Ha.
  destruct Hr as [td [tm [ty [-> [Hd [Hm [Hy Hv]]]]]]].
  unfold strptime, dmy_format. rewrite Ha.
  rewrite (match_day td _ _ _ _ Hd), (match_month tm _ _ _ _ Hm),
    (match_year ty _ _ Hy).
  cbn [record_group f_year f_month f_day default_fields].
  rewrite (day_text_value _ _ Hd), (month_text_value _ _ Hm),
    (year_text_value _ _ Hy), Hv.
  now destruct d.
Qed.

(** The parser returns a date exactly for the strings that read as one,
    and raises [ValueError] for every other ASCII string. *)
Lemma strptime_spec (s : string) :
  isascii s = true ->
  (exists d, reads_as_date s d /\ strptime s dmy_format = Return d)
  \/ ((forall d, ~ reads_as_date s d) /\ strptime s dmy_format = Raise ValueError).
Proof.
  intros Ha. destruct (strptime s dmy_format) as [d| |] eqn:H.
  - left. exists d. split; [now apply strptime_sound | reflexivity].
  - right. split.
    + intros d Hd. apply strptime_complete in Hd. congruence.
    + unfold strptime in H. rewrite Ha in H.
      destruct (match_directives dmy_format s default_fields) as [[f [|c r]]|];
        [| now injection H as <- | now injection H as <-].
      destruct (valid_date (f_year f) (f_month f) (f_day f));
        [discriminate | now injection H as <-].
  - unfold strptime in H. rewrite Ha in H.
    destruct (match_directives dmy_format s default_fields) as [[f [|c r]]|];
      try discriminate.
    destruct (valid_date (f_year f) (f_month f) (f_day f)); discriminate.
Qed.

Lemma days_in_month_le (y m : Z) : days_in_month y m <= 31.
Proof.
  unfold days_in_month.
  destruct (m =? 2); [destruct (is_leap y); lia |].
  destruct ((m =? 4) || (m =? 6) || (m =? 9) || (m =? 11)); lia.
Qed.

Lemma valid_date_bounds (y m d : Z) :
  valid_date y m d = true -> 1 <= m <= 12 /\ 1 <= d <= 31.
Proof.
  unfold valid_date. rewrite !andb_true_iff, !Z.leb_le.
  pose proof (days_in_month_le y m). lia.
Qed.

(** Two digits, a slash, two digits, a slash and four digits that make a
    date of the calendar read as that date. *)
Lemma dd_mm_yyyy_reads (dd mm yyyy : string) :
  all_digits dd = true -> String.length dd = 2%nat ->
  all_digits mm = true -> String.length mm = 2%nat ->
  all_digits yyyy = true -> String.length yyyy = 4%nat ->
  valid_date (digits_value yyyy) (digits_value mm) (digits_value dd) = true ->
  reads_as_date (dd ++ "/" ++ mm ++ "/" ++ yyyy)
                (mkDate (digits_value yyyy) (digits_value mm) (digits_value dd)).
Proof.
  intros Dd Ld Dm Lm Dy Ly Hv.
  destruct (valid_date_bounds _ _ _ Hv) as [Hm Hd].
  exists dd, mm, yyyy. simpl.
  split; [reflexivity |].
  split; [left; repeat split; try assumption; lia |].
  split; [repeat split; try assumption; lia |].
  split; [repeat split; assumption | exact Hv].
Qed.

Lemma null_string_short (s : string) :
  is_null_string s = true -> (String.length s <= 3)%nat.
Proof.
  unfold is_null_string, nat_strings. cbn [existsb].
  rewrite !orb_true_iff, !String.eqb_eq.
  intros [-> | [-> | [-> | [-> | [-> | [-> | [-> | [=]]]]]]]]; simpl; lia.
Qed.

Lemma to_datetime_dmy (arg : Series) :
  to_datetime arg "%d/%m/%Y" = mapM (to_datetime_cell dmy_format) arg.
Proof. reflexivity. Qed.

(** One value of the column: a missing value and the strings read as
    missing become [NaT]; a string that reads as a date becomes that date;
    any other ASCII string raises. *)
Lemma to_datetime_cell_spec (c : Cell) :
  c = NaN \/ (exists t, c = Str t /\ isascii t = true) ->
  (c = NaN /\ to_datetime_cell dmy_format c = Return NaT)
  \/ (exists t, c = Str t /\ is_null_string t = true
                /\ to_datetime_cell dmy_format c = Return NaT)
  \/ (exists t d, c = Str t /\ is_null_string t = false /\ reads_as_date t d
                  /\ to_datetime_cell dmy_format c = Return (Timestamp d))
  \/ (exists t, c = Str t /\ is_null_string t = false
                /\ (forall d, ~ reads_as_date t d)
                /\ to_datetime_cell dmy_format c = Raise ValueError).
Proof.
  intros [-> | [t [-> Ha]]]; [now left |]. right.
  simpl. destruct (is_null_string t) eqn:Hn.
  - left. now exists t.
  - right. destruct (strptime_spec t Ha) as [[d [Hr Hp]] | [Hr Hp]]; rewrite Hp; simpl.
    + left. now exists t, d.
    + right. now exists t.
Qed.

(** One value that is text, is not read as missing and does not read as a
    date makes the conversion of the whole column raise. *)
Lemma to_datetime_rejects (arg : Series) (s : string) :
  ascii_text_or_missing arg ->
  In (Str s) arg -> is_null_string s = false -> (forall d, ~ reads_as_date s d) ->
  to_datetime arg "%d/%m/%Y" = Raise ValueError.
Proof.
  rewrite to_datetime_dmy. intros Htm Hin Hn Hbad.
  induction arg as [|c arg IH]; [contradiction |].
  assert (Htail : ascii_text_or_missing arg)
    by (intros x Hx; apply Htm; now right).
  cbn [mapM].
  destruct (to_datetime_cell_spec c (Htm c (or_introl eq_refl)))
    as [[-> Hc] | [[t [-> [Ht Hc]]] | [[t [d [-> [Ht [Hr Hc]]]]] | [t [-> [Ht [Hr Hc]]]]]]];
    rewrite Hc; cbn [bind]; try reflexivity.
  - destruct Hin as [[=] | Hin]. now rewrite (IH Htail Hin).
  - destruct Hin as [[= ->] | Hin]; [congruence |]. now rewrite (IH Htail Hin).
  - destruct Hin as [[= ->] | Hin]; [now elim (Hbad d) |]. now rewrite (IH Htail Hin).
Qed.

(** C6, as the code has it.  A "Run Date" string "DD/MM/YYYY" of ASCII
    digits whose numbers make a date of the calendar is converted to that
    date.  In a column of ASCII text and empty cells, a string that is
    neither read as a missing value nor reads as a day/month/4-digit-year
    date makes the conversion raise a [ValueError], and with it the parsing
    of the whole page.  Empty cells, the empty string and the strings "NaT", "nat",
    "NAT", "nan", "NaN" and "NAN" are not rejected: they are converted to
    the missing date.  When the column converts, every row holds the
    conversion of the value of that row. *)
Theorem run_date_conversion
        (read_html : string -> Outcome (list DataFrame))
        (page_contents : string) (tables : list DataFrame)
        (results_df : DataFrame) (run_date : Series) :
  read_html page_contents = Return tables ->
  find_results_table tables = Return results_df ->
  getitem results_df (LStr "Run Date") = Return run_date ->
  ascii_text_or_missing run_date ->
  (forall dd mm yyyy,
      all_digits dd = true -> String.length dd = 2%nat ->
      all_digits mm = true -> String.length mm = 2%nat ->
      all_digits yyyy = true -> String.length yyyy = 4%nat ->
      valid_date (digits_value yyyy) (digits_value mm) (digits_value dd) = true ->
      to_datetime [Str (dd ++ "/" ++ mm ++ "/" ++ yyyy)] "%d/%m/%Y"
      = Return [Timestamp (mkDate (digits_value yyyy) (digits_value mm)
                                  (digits_value dd))])
  /\ (forall s,
         In (Str s) run_date -> is_null_string s = false ->
         (forall d, ~ reads_as_date s d) ->
         to_datetime run_date "%d/%m/%Y" = Raise ValueError
         /\ _parse_results_page read_html page_contents = Raise ValueError)
  /\ to_datetime [NaN; Str ""; Str "NaT"; Str "nat"; Str "NAT";
                  Str "nan"; Str "NaN"; Str "NAN"] "%d/%m/%Y"
     = Return [NaT; NaT; NaT; NaT; NaT; NaT; NaT; NaT]
  /\ (forall dates,
         to_datetime run_date "%d/%m/%Y" = Return dates ->
         Forall2 (fun c o =>
                    (c = NaN /\ o = NaT)
                    \/ (exists t, c = Str t /\ is_null_string t = true /\ o = NaT)
                    \/ (exists t d, c = Str t /\ is_null_string t = false
                                    /\ reads_as_date t d /\ o = Timestamp d))
                 run_date dates).
Proof.
  intros Hread Hfind Hcol Htm. split; [| split; [| split]].
  - intros dd mm yyyy Dd Ld Dm Lm Dy Ly Hv.
    pose proof (dd_mm_yyyy_reads dd mm yyyy Dd Ld Dm Lm Dy Ly Hv) as Hr.
    rewrite to_datetime_dmy. cbn [mapM to_datetime_cell].
    assert (Hn : is_null_string (dd ++ "/" ++ mm ++ "/" ++ yyyy) = false).
    { destruct (is_null_string (dd ++ "/" ++ mm ++ "/" ++ yyyy)) eqn:E;
        [| reflexivity].
      apply null_string_short in E. rewrite !length_append in E.
      simpl in E. lia. }
    rewrite Hn, (strptime_complete _ _ Hr). reflexivity.
  - intros s Hin Hn Hbad.
    pose proof (to_datetime_rejects run_date s Htm Hin Hn Hbad) as Hraise.
    split; [exact Hraise |].
    unfold _parse_results_page. rewrite Hread. cbn [bind].
    rewrite Hfind. cbn [bind]. rewrite Hcol. cbn [bind].
    rewrite Hraise. reflexivity.
  - reflexivity.
  - intros dates Hd. rewrite to_datetime_dmy in Hd. apply mapM_Return in Hd.
    clear Hcol. induction Hd as [|c o cs os Hc _ IH]; constructor.
    + destruct (to_datetime_cell_spec c (Htm c (or_introl eq_refl)))
        as [[-> Hc'] | [[t [-> [Ht Hc']]] | [[t [d [-> [Ht [Hr Hc']]]]] | [t [-> [Ht [Hr Hc']]]]]]];
        rewrite Hc' in Hc; try discriminate; injection Hc as <-.
      * now left.
      * right. left. now exists t.
      * right. right. now exists t, d.
    + apply IH. intros x Hx. apply Htm. now right.
Qed.

Lemma run_date_conversion_witness :
  _parse_results_page (fun _ => Return sample_tables_iso_date) "<html>"
  = Raise ValueError.
Proof.
  refine (proj2 (proj1 (proj2
            (run_date_conversion (fun _ => Return sample_tables_iso_date) "<html>"
               sample_tables_iso_date (nth 0 sample_tables_iso_date [])
               [Str "04/01/2020"; Str "2021-01-01"] eq_refl eq_refl eq_refl _))
            "2021-01-01" _ eq_refl _)).
  - intros c [<- | [<- | []]]; right; eexists; split; reflexivity.
  - right. left. reflexivity.
  - intros d Hd. apply strptime_complete in Hd. vm_compute in Hd. discriminate Hd.
Defined.

(** C6 as stated fails: an empty "Run Date" cell does not match the format,
    and neither does the text "NaT", yet neither raises; the page with the
    empty cell is parsed to a result set with a missing date. *)
Lemma missing_run_date_not_rejected :
  (forall d, ~ reads_as_date "NaT" d)
  /\ to_datetime [Str "NaT"] "%d/%m/%Y" = Return [NaT]
  /\ getitem (nth 0 sample_tables_missing_date []) (LStr "Run Date")
     = Return [Str "04/01/2020"; NaN]
  /\ _parse_results_page (fun _ => Return sample_tables_missing_date) "<html>"
     = Return [ (LStr "Event", [Str "Riverside parkrun"; Str "Riverside parkrun"]);
                (LStr "Run Date", [Timestamp (mkDate 2020 1 4); NaT]);
                (LStr "time_seconds", [Int 1513; Int 3900]) ].
Proof.
  split; [| split; [| split]]; try reflexivity.
  intros d Hd. destruct Hd as [td [tm [ty [Hs _]]]].
  assert (Hc : count "/" "NaT" = count "/" (td ++ "/" ++ tm ++ "/" ++ ty))
    by now rewrite Hs.
  rewrite count_append in Hc. simpl in Hc. lia.
Qed.

(* ================================================================== *)
(** ** The columns of the result set                                   *)
(* ================================================================== *)

Lemma selected_absent (l : Label) (df : DataFrame) :
  ~ In l (columns df) -> selected l df = [].
Proof.
  induction df as [|c df IH]; simpl; [reflexivity |].
  intros H. destruct (label_eqb (fst c) l) eqn:E.
  - apply label_eqb_eq in E. elim H. now left.
  - apply IH. intros Hin. apply H. now right.
Qed.

(** With distinct labels, a label selects one column at most. *)
Lemma selected_distinct (l : Label) (df : DataFrame) :
  NoDup (columns df) ->
  selected l df = [] \/ exists s, selected l df = [(l, s)].
Proof.
  induction df as [|[l' s] df IH]; simpl; [now left |].
  intros H. inversion H as [|? ? Hnot Hnd]; subst.
  destruct (label_eqb l' l) eqn:E.
  - apply label_eqb_eq in E. subst l'. right. exists s.
    now rewrite (selected_absent l df Hnot).
  - now apply IH.
Qed.

Lemma getitem_selected (l : Label) (df : DataFrame) (s : Series) :
  NoDup (columns df) -> getitem df l = Return s -> selected l df = [(l, s)].
Proof.
  intros Hnd. unfold getitem.
  destruct (selected_distinct l df Hnd) as [-> | [s' ->]]; [discriminate |].
  now intros [= ->].
Qed.

Lemma columns_replace (l : Label) (s : Series) (df : DataFrame) :
  columns (map (fun c => if label_eqb (fst c) l then (fst c, s) else c) df)
  = columns df.
Proof.
  unfold columns. rewrite map_map. apply map_ext.
  intros c. now destruct (label_eqb (fst c) l).
Qed.

Lemma columns_setitem (l : Label) (s : Series) (df : DataFrame) :
  columns (setitem df l s)
  = if existsb (label_eqb l) (columns df) then columns df
    else (columns df ++ [l])%list.
Proof.
  unfold setitem. destruct (existsb (label_eqb l) (columns df)).
  - apply columns_replace.
  - unfold columns. now rewrite map_app.
Qed.

Lemma setitem_distinct (l : Label) (s : Series) (df : DataFrame) :
  NoDup (columns df) -> NoDup (columns (setitem df l s)).
Proof.
  intros H. rewrite columns_setitem.
  destruct (existsb (label_eqb l) (columns df)) eqn:E; [exact H |].
  apply NoDup_app; [exact H | repeat constructor; intros [] |].
  intros x Hx [<- | []].
  apply existsb_label in Hx. congruence.
Qed.

Lemma selected_replace_other (l l' : Label) (s : Series) (df : DataFrame) :
  l <> l' ->
  selected l' (map (fun c => if label_eqb (fst c) l then (fst c, s) else c) df)
  = selected l' df.
Proof.
  intros Hne. induction df as [|c df IH]; simpl; [reflexivity |].
  destruct (label_eqb (fst c) l) eqn:E; simpl.
  - apply label_eqb_eq in E.
    destruct (label_eqb (fst c) l') eqn:E'.
    + apply label_eqb_eq in E'. congruence.
    + exact IH.
  - destruct (label_eqb (fst c) l'); [now rewrite IH | exact IH].
Qed.

Lemma selected_replace_same (l : Label) (s : Series) (df : DataFrame) :
  NoDup (columns df) -> In l (columns df) ->
  selected l (map (fun c => if label_eqb (fst c) l then (fst c, s) else c) df)
  = [(l, s)].
Proof.
  induction df as [|[l0 s0] df IH]; simpl; [contradiction |].
  intros Hnd Hin. inversion Hnd as [|? ? Hnot Hnd']; subst.
  destruct (label_eqb l0 l) eqn:E; simpl; rewrite E.
  - apply label_eqb_eq in E. subst l0. f_equal.
    apply selected_absent. now rewrite columns_replace.
  - destruct Hin as [-> | Hin]; [now rewrite label_eqb_refl in E |].
    now apply IH.
Qed.

Lemma selected_app (l : Label) (a b : DataFrame) :
  selected l (a ++ b)%list = (selected l a ++ selected l b)%list.
Proof. unfold selected. apply filter_app. Qed.

(** A column that was just assigned is the one its label selects. *)
Lemma selected_setitem_same (l : Label) (s : Series) (df : DataFrame) :
  NoDup (columns df) -> selected l (setitem df l s) = [(l, s)].
Proof.
  intros Hnd. unfold setitem.
  destruct (existsb (label_eqb l) (columns df)) eqn:E.
  - apply selected_replace_same; [exact Hnd | now apply existsb_label].
  - rewrite selected_app, selected_absent.
    + simpl. now rewrite label_eqb_refl.
    + intros Hin. apply existsb_label in Hin. congruence.
Qed.

(** An assignment leaves the columns of every other label as they were. *)
Lemma selected_setitem_other (l l' : Label) (s : Series) (df : DataFrame) :
  l <> l' -> selected l' (setitem df l s) = selected l' df.
Proof.
  intros Hne. unfold setitem.
  destruct (existsb (label_eqb l) (columns df)).
  - now apply selected_replace_other.
  - rewrite selected_app. simpl.
    destruct (label_eqb l l') eqn:E.
    + apply label_eqb_eq in E. contradiction.
    + apply app_nil_r.
Qed.

Lemma getitem_setitem_other (l l' : Label) (s : Series) (df : DataFrame) :
  l <> l' -> getitem (setitem df l s) l' = getitem df l'.
Proof. intros H. unfold getitem. now rewrite selected_setitem_other. Qed.

Lemma find_results_table_required (tables : list DataFrame) (df : DataFrame) :
  find_results_table tables = Return df ->
  In df tables /\ has_required_columns df.
Proof.
  unfold find_results_table.
  destruct (find (fun df => issubset required_columns (columns df)) tables)
    as [t|] eqn:Hf; [| discriminate].
  intros [= ->]. apply find_some in Hf as [Hin Ht].
  split; [exact Hin | now apply issubset_required].
Qed.

Lemma getitem_present (l : Label) (df : DataFrame) :
  NoDup (columns df) -> In l (columns df) -> exists s, getitem df l = Return s.
Proof.
  intros Hnd Hin. unfold getitem.
  destruct (selected_distinct l df Hnd) as [E | [s E]]; rewrite E.
  - exfalso. revert Hin E. clear. induction df as [|c df IH]; simpl; [tauto |].
    intros [<- | Hin]; [now rewrite label_eqb_refl |].
    destruct (label_eqb (fst c) l); [discriminate | now apply IH].
  - now exists s.
Qed.

(** C7.  For the table the loop selects, with the distinct column labels
    the table parser gives, the result sets that are returned are exactly
    the frames of the three columns "Event", "Run Date" and "time_seconds",
    in this order, in which "Event" is the column of the table unchanged
    and, row by row in the order of the table, "Run Date" holds the
    conversion of the date of that row and "time_seconds" the seconds of
    the time of that row. *)
Theorem result_set_columns
        (read_html : string -> Outcome (list DataFrame))
        (page_contents : string) (tables : list DataFrame)
        (results_df result : DataFrame) :
  read_html page_contents = Return tables ->
  find_results_table tables = Return results_df ->
  NoDup (columns results_df) ->
  _parse_results_page read_html page_contents = Return result
  <-> exists event run_date time dates seconds,
        getitem results_df (LStr "Event") = Return event
        /\ getitem results_df (LStr "Run Date") = Return run_date
        /\ getitem results_df (LStr "Time") = Return time
        /\ result = [ (LStr "Event", event);
                      (LStr "Run Date", dates);
                      (LStr "time_seconds", seconds) ]
        /\ Forall2 (fun c o => to_datetime_cell dmy_format c = Return o)
                   run_date dates
        /\ Forall2 (fun c o => exists s ns,
                        c = Str s
                        /\ parse_timedelta_string (_normalise_time_string s)
                           = Return ns
                        /\ o = Int (Z.quot ns 1000000000)) time seconds.
Proof.
  intros Hread Hfind Hnd.
  assert (Hsel : forall event dates seconds,
             getitem results_df (LStr "Event") = Return event ->
             getitem_list
               (setitem (setitem results_df (LStr "Run Date") dates)
                        (LStr "time_seconds") seconds)
               [LStr "Event"; LStr "Run Date"; LStr "time_seconds"]
             = Return [ (LStr "Event", event);
                        (LStr "Run Date", dates);
                        (LStr "time_seconds", seconds) ]).
  { intros event dates seconds Hev.
    pose proof (setitem_distinct (LStr "Run Date") dates results_df Hnd) as Hnd1.
    unfold getitem_list. cbn [mapM].
    rewrite (selected_setitem_other (LStr "time_seconds") (LStr "Event")),
      (selected_setitem_other (LStr "Run Date") (LStr "Event")),
      (selected_setitem_other (LStr "time_seconds") (LStr "Run Date"))
      by discriminate.
    rewrite (getitem_selected _ _ _ Hnd Hev),
      (selected_setitem_same _ _ _ Hnd), (selected_setitem_same _ _ _ Hnd1).
    reflexivity. }
  unfold _parse_results_page.
  rewrite Hread. cbn [bind]. rewrite Hfind. cbn [bind].
  split.
  - intros Hres.
    destruct (find_results_table_required _ _ Hfind) as [_ Hreq].
    destruct (getitem_present (LStr "Event") results_df Hnd) as [event Hev].
    { apply Hreq. left. reflexivity. }
    apply bind_Return in Hres as [run_date [Hrd Hres]].
    apply bind_Return in Hres as [dates [Hdates Hres]].
    apply bind_Return in Hres as [time [Htime Hres]].
    apply bind_Return in Hres as [seconds [Hsec Hres]].
    rewrite getitem_setitem_other in Htime by discriminate.
    rewrite (Hsel event dates seconds Hev) in Hres. injection Hres as <-.
    exists event, run_date, time, dates, seconds.
    split; [exact Hev |]. split; [exact Hrd |]. split; [exact Htime |].
    split; [reflexivity |]. split.
    + rewrite to_datetime_dmy in Hdates. now apply mapM_Return.
    + now apply time_seconds_of_rows.
  - intros [event [run_date [time [dates [seconds
             [Hev [Hrd [Htime [-> [Hdates Hsec]]]]]]]]]].
    rewrite Hrd. cbn [bind].
    apply mapM_Return in Hdates. rewrite to_datetime_dmy, Hdates. cbn [bind].
    rewrite getitem_setitem_other by discriminate. rewrite Htime. cbn [bind].
    apply time_seconds_of_rows in Hsec. rewrite Hsec. cbn [bind].
    now apply Hsel.
Qed.

Lemma result_set_columns_witness :
  NoDup (columns (nth 1 sample_tables []))
  /\ exists event run_date time dates seconds,
       getitem (nth 1 sample_tables []) (LStr "Event") = Return event
       /\ getitem (nth 1 sample_tables []) (LStr "Run Date") = Return run_date
       /\ getitem (nth 1 sample_tables []) (LStr "Time") = Return time
       /\ sample_results = [ (LStr "Event", event);
                             (LStr "Run Date", dates);
                             (LStr "time_seconds", seconds) ]
       /\ Forall2 (fun c o => to_datetime_cell dmy_format c = Return o)
                  run_date dates
       /\ Forall2 (fun c o => exists s ns,
                       c = Str s
                       /\ parse_timedelta_string (_normalise_time_string s)
                          = Return ns
                       /\ o = Int (Z.quot ns 1000000000)) time seconds.
Proof.
  assert (Hnd : NoDup (columns (nth 1 sample_tables []))).
  { simpl. repeat constructor; simpl; intros H;
      repeat (destruct H as [H | H]; [discriminate H |]); exact H. }
  exact (conj Hnd
           (proj1 (result_set_columns (fun _ => Return sample_tables) "<html>"
                     sample_tables (nth 1 sample_tables []) sample_results
                     eq_refl eq_refl Hnd) eq_refl)).
Defined.

(* ================================================================== *)
(** ** Decimal numerals and tick labels                                *)
(* ================================================================== *)

Lemma digits_value_from_append (a : Z) (s t : string) :
  digits_value_from a (s ++ t) = digits_value_from (digits_value_from a s) t.
Proof. revert a. induction s as [|c s IH]; intros a; simpl; [reflexivity | apply IH]. Qed.

Lemma digits_value_snoc (s : string) (c : ascii) :
  digits_value (s ++ String c "") = 10 * digits_value s + digit_value c.
Proof. unfold digits_value. now rewrite digits_value_from_append. Qed.

Lemma digit_char_code (d : N) : (d < 10)%N -> N_of_ascii (digit_char d) = (48 + d)%N.
Proof. intros H. unfold digit_char. apply N_ascii_embedding. lia. Qed.

Lemma is_digit_digit_char (d : N) : (d < 10)%N -> is_digit (digit_char d) = true.
Proof.
  intros H. unfold is_digit. rewrite (digit_char_code d H).
  apply andb_true_intro. split; apply N.leb_le; lia.
Qed.

Lemma digit_value_digit_char (d : N) : (d < 10)%N -> digit_value (digit_char d) = Z.of_N d.
Proof. intros H. unfold digit_value. rewrite (digit_char_code d H). lia. Qed.

Lemma decimal_from_acc (fuel : nat) (n : N) (acc : string) :
  decimal_from fuel n acc = decimal_from fuel n "" ++ acc.
Proof.
  revert n acc. induction fuel as [|fuel IH]; intros n acc; simpl; [reflexivity |].
  destruct (n / 10 =? 0)%N; [reflexivity |].
  rewrite (IH _ (String _ acc)), (IH _ (String _ "")).
  now rewrite append_assoc.
Qed.

Lemma tenth_below (fuel : nat) (n : N) :
  (n < 2 ^ N.of_nat (S fuel))%N -> (n / 10 < 2 ^ N.of_nat fuel)%N.
Proof.
  intros H. rewrite Nat2N.inj_succ, N.pow_succ_r' in H.
  apply N.Div0.div_lt_upper_bound. lia.
Qed.

(** Fuel beyond the number of binary digits changes nothing. *)
Lemma decimal_from_fuel (f1 f2 : nat) (n : N) (acc : string) :
  (n < 2 ^ N.of_nat (S f1))%N -> (n < 2 ^ N.of_nat (S f2))%N ->
  decimal_from (S f1) n acc = decimal_from (S f2) n acc.
Proof.
  revert f2 n acc. induction f1 as [|f1 IH]; intros f2 n acc H1 H2.
  - change (2 ^ N.of_nat 1)%N with 2%N in H1.
    simpl. rewrite (N.div_small n 10) by lia. reflexivity.
  - destruct f2 as [|f2].
    + change (2 ^ N.of_nat 1)%N with 2%N in H2.
      simpl. rewrite (N.div_small n 10) by lia. reflexivity.
    + cbn [decimal_from]. destruct (n / 10 =? 0)%N; [reflexivity |].
      apply IH; now apply tenth_below.
Qed.

Lemma below_own_fuel (n : N) : (n < 2 ^ N.of_nat (S (N.to_nat (N.log2 n))))%N.
Proof.
  rewrite Nat2N.inj_succ, N2Nat.id.
  destruct n as [|p]; [reflexivity |].
  apply N.log2_spec. lia.
Qed.

Lemma decimal_small (n : N) : (n < 10)%N -> decimal n = String (digit_char n) "".
Proof.
  intros H. unfold decimal. simpl.
  rewrite (N.div_small n 10 H), (N.mod_small n 10 H). reflexivity.
Qed.

Lemma decimal_from_S (fuel : nat) (n : N) (acc : string) :
  decimal_from (S fuel) n acc
  = if (n / 10 =? 0)%N then String (digit_char (n mod 10)) acc
    else decimal_from fuel (n / 10) (String (digit_char (n mod 10)) acc).
Proof. reflexivity. Qed.

Lemma decimal_step (n : N) :
  (10 <= n)%N -> decimal n = decimal (n / 10) ++ String (digit_char (n mod 10)) "".
Proof.
  intros H. unfold decimal at 1.
  pose proof (below_own_fuel n) as Hn.
  destruct (N.to_nat (N.log2 n)) as [|f].
  { change (2 ^ N.of_nat 1)%N with 2%N in Hn. lia. }
  rewrite decimal_from_S.
  destruct (N.eqb_spec (n / 10) 0) as [E|_].
  - apply N.div_small_iff in E; lia.
  - rewrite decimal_from_acc. f_equal. unfold decimal.
    apply decimal_from_fuel.
    + now apply tenth_below.
    + apply below_own_fuel.
Qed.

Lemma decimal_ind (P : N -> Prop) :
  (forall n, (n < 10)%N -> P n) ->
  (forall n, (10 <= n)%N -> P (n / 10)%N -> P n) ->
  forall n, P n.
Proof.
  intros Hsmall Hstep n.
  induction n as [n IH] using (well_founded_induction N.lt_wf_0).
  destruct (N.lt_ge_cases n 10) as [H|H]; [now apply Hsmall |].
  apply Hstep; [exact H |]. apply IH. apply N.Div0.div_lt_upper_bound. lia.
Qed.

Lemma decimal_digits (n : N) : all_digits (decimal n) = true.
Proof.
  induction n as [n H|n H IH] using decimal_ind.
  - rewrite (decimal_small n H). simpl. now rewrite is_digit_digit_char.
  - rewrite (decimal_step n H), all_digits_append, IH. simpl.
    rewrite is_digit_digit_char; [reflexivity |]. now apply N.mod_lt.
Qed.

Lemma decimal_value (n : N) : digits_value (decimal n) = Z.of_N n.
Proof.
  induction n as [n H|n H IH] using decimal_ind.
  - rewrite (decimal_small n H). unfold digits_value. simpl.
    now rewrite digit_value_digit_char.
  - rewrite (decimal_step n H), digits_value_snoc, IH.
    rewrite digit_value_digit_char by (now apply N.mod_lt).
    rewrite (N.div_mod n 10) at 3 by lia. lia.
Qed.

Lemma decimal_length_two (n : N) :
  (10 <= n)%N ->
  (2 <= String.length (decimal n))%nat
  /\ ((n < 100)%N -> String.length (decimal n) = 2%nat).
Proof.
  intros H. rewrite (decimal_step n H), length_append. simpl.
  destruct (N.lt_ge_cases (n / 10) 10) as [Hq|Hq].
  - rewrite (decimal_small _ Hq). simpl. split; [lia | reflexivity].
  - rewrite (decimal_step _ Hq), length_append. simpl. split; [lia |].
    intros Hn. assert (n / 10 < 10)%N by (apply N.Div0.div_lt_upper_bound; lia).
    lia.
Qed.

(** A non-negative number formatted with "02d": its decimal numeral, at
    least two digits long, and exactly two below one hundred. *)
Lemma format_02d_numeral (z : Z) :
  0 <= z ->
  all_digits (format_02d z) = true
  /\ digits_value (format_02d z) = z
  /\ (2 <= String.length (format_02d z))%nat
  /\ (z < 100 -> String.length (format_02d z) = 2%nat).
Proof.
  intros Hz. unfold format_02d, str.
  destruct (Z.ltb_spec z 0) as [?|_]; [lia |].
  destruct (Z.ltb_spec z 10) as [Hs|Hs].
  - assert (Hn : (Z.abs_N z < 10)%N) by lia.
    rewrite (decimal_small _ Hn). simpl.
    rewrite is_digit_digit_char by exact Hn.
    unfold digits_value. simpl. rewrite digit_value_digit_char by exact Hn.
    repeat split; try reflexivity; lia.
  - assert (Hn : (10 <= Z.abs_N z)%N) by lia.
    destruct (decimal_length_two _ Hn) as [H2 H100].
    repeat split.
    + apply decimal_digits.
    + rewrite decimal_value. lia.
    + exact H2.
    + intros H. apply H100. lia.
Qed.

Lemma tick_labels_of_ints (vs : list Z) :
  mapM (fun c => match c with
                 | Int v => Return (tick_label v)
                 | _ => Unmodelled
                 end) (map Int vs)
  = Return (map tick_label vs).
Proof.
  induction vs as [|v vs IH]; simpl; [reflexivity |]. now rewrite IH.
Qed.

(** C8.  For a result set, that is, a frame with a "Run Date" column and a
    "time_seconds" column holding the durations [vs], the chart is written
    to "results.html" with the tick values of its Y axis set to that column
    and the tick texts to the labels of its values, in the same order.  The
    label of a duration [v >= 0] is "MM:SS": MM is the decimal numeral of
    [v / 60], at least two digits long and exactly two when [v / 60 < 100],
    and SS is the two-digit numeral of [v mod 60]; so 1513 is labelled
    "25:13" and 3900 is labelled "65:00". *)
Theorem tick_values_and_labels (data_frame : DataFrame) (vs : list Z) :
  In (LStr "Run Date") (columns data_frame) ->
  getitem data_frame (LStr "time_seconds") = Return (map Int vs) ->
  (exists fig,
      _generate_graph data_frame
      = (["Writing output to results.html"], Return ("results.html", fig))
      /\ tickvals fig = map Int vs
      /\ ticktext fig = map tick_label vs)
  /\ (forall v, 0 <= v ->
        exists mm ss,
          tick_label v = mm ++ ":" ++ ss
          /\ all_digits mm = true /\ all_digits ss = true
          /\ digits_value mm = v / 60 /\ digits_value ss = v mod 60
          /\ (2 <= String.length mm)%nat
          /\ (v / 60 < 100 -> String.length mm = 2%nat)
          /\ String.length ss = 2%nat)
  /\ tick_label 1513 = "25:13"
  /\ tick_label 3900 = "65:00".
Proof.
  intros Hdate Hcol. split; [| split; [| split; reflexivity]].
  - unfold _generate_graph, line.
    assert (Hsec : existsb (label_eqb (LStr "time_seconds")) (columns data_frame)
                   = true).
    { destruct (existsb (label_eqb (LStr "time_seconds")) (columns data_frame))
        eqn:E; [reflexivity |].
      unfold getitem in Hcol. rewrite selected_absent in Hcol; [discriminate |].
      intros Hin. apply existsb_label in Hin. congruence. }
    apply existsb_label in Hdate. rewrite Hdate, Hsec. cbn [andb].
    unfold bind_run, lift, print. cbn [fst snd app].
    rewrite Hcol. cbn [fst snd app].
    rewrite tick_labels_of_ints. cbn [fst snd app].
    eexists. split; [reflexivity |]. split; reflexivity.
  - intros v Hv.
    assert (Hq : 0 <= v / 60) by (apply Z.div_pos; lia).
    assert (Hr : 0 <= v mod 60 < 60) by (apply Z.mod_pos_bound; lia).
    destruct (format_02d_numeral (v / 60) Hq) as [Dm [Vm [Lm Lm2]]].
    destruct (format_02d_numeral (v mod 60) (proj1 Hr)) as [Ds [Vs [_ Ls]]].
    exists (format_02d (v / 60)), (format_02d (v mod 60)).
    repeat split; try assumption. apply Ls. lia.
Qed.

Lemma tick_values_and_labels_witness :
  exists fig,
    _generate_graph sample_results
    = (["Writing output to results.html"], Return ("results.html", fig))
    /\ tickvals fig = [Int 1513; Int 3900]
    /\ ticktext fig = ["25:13"; "65:00"].
Proof.
  refine (proj1 (tick_values_and_labels sample_results [1513; 3900] _ eq_refl)).
  right. left. reflexivity.
Defined.

(* ================================================================== *)
(** ** Further properties of the normalisation of time strings         *)
(* ================================================================== *)

Lemma count_normalised (t : string) :
  count ":" (_normalise_time_string t)
  = if Nat.eqb (count ":" t) 1 then 2%nat else count ":" t.
Proof.
  unfold _normalise_time_string.
  destruct (Nat.eqb_spec (count ":" t) 1) as [E|E]; [| reflexivity].
  change ("00:" ++ t) with (String "0" (String "0" (String ":" t))).
  cbn [count]. simpl. now rewrite E.
Qed.

(** X1.  Normalising a time string twice gives what normalising it once
    gives: the hour field is added at most once. *)
Theorem normalise_idempotent (t : string) :
  _normalise_time_string (_normalise_time_string t) = _normalise_time_string t.
Proof.
  apply normalise_not_one_colon. rewrite count_normalised.
  destruct (Nat.eqb_spec (count ":" t) 1); [discriminate | assumption].
Qed.

(** X2.  A normalised time string never has exactly one colon; it has
    exactly two colons when the string it comes from has one or two; and it
    ends with the string it comes from, after nothing or after "00:". *)
Theorem normalised_colons (t : string) :
  count ":" (_normalise_time_string t) <> 1%nat
  /\ (count ":" (_normalise_time_string t) = 2%nat
      <-> count ":" t = 1%nat \/ count ":" t = 2%nat)
  /\ (_normalise_time_string t = t \/ _normalise_time_string t = "00:" ++ t).
Proof.
  rewrite count_normalised. unfold _normalise_time_string.
  destruct (Nat.eqb_spec (count ":" t) 1) as [E|E].
  - split; [discriminate |]. split; [| now right].
    split; [now left | reflexivity].
  - split; [assumption |]. split; [| now left].
    split; [now right | intros [H|H]; [contradiction | exact H]].
Qed.

(* ================================================================== *)
(** ** Time strings the duration parser rejects                        *)
(* ================================================================== *)

(** Once the seconds field is closed, whatever digits and colons follow,
    the string is rejected. *)
Lemma scan_after_seconds (rest : string) (st : Scan) :
  current_unit st = Some U_s -> all_digits (number st) = true ->
  clock_chars rest = true ->
  (st' <- scan st rest ;; scan_end st') = Raise ValueError.
Proof.
  revert st. induction rest as [|c rest IH]; intros st Hu Hn Hr.
  - simpl. unfold scan_end. now rewrite Hu.
  - simpl in Hr. apply andb_prop in Hr as [Hc Hr].
    cbn [scan]. unfold scan_char.
    destruct (is_digit c) eqn:Dc.
    + cbn [bind]. apply IH; cbn [current_unit number]; try assumption.
      rewrite all_digits_append, Hn. simpl. now rewrite Dc.
    + simpl in Hc. rewrite Hc.
      destruct (number st) as [|a n] eqn:En; [reflexivity |].
      rewrite <- En in *. rewrite Hu.
      destruct (int_limited_cases (number st)) as [-> | ->];
        [rewrite En; discriminate | assumption | | reflexivity].
      cbn [bind fst snd].
      destruct (add_field_cases (result st) (digits_value (number st)) (mult st))
        as [-> | ->]; [| reflexivity].
      cbn [bind]. now apply IH.
Qed.

Lemma time_seconds_of_rejected (t : string) (e : Exn) :
  parse_timedelta_string (_normalise_time_string t) = Raise e ->
  time_seconds_of [Str t] = Raise e.
Proof.
  intros H. unfold time_seconds_of, apply, to_timedelta.
  cbn [mapM apply_cell bind to_timedelta_cell]. now rewrite H.
Qed.

(** X3.  A time string with more than three fields, that is, three
    non-empty fields of digits, each followed by a colon, and then any
    digits and colons, is left unchanged by the normalisation and rejected
    by the duration parser with a [ValueError]. *)
Theorem too_many_fields_rejected (h mi s rest : string) :
  h <> "" -> mi <> "" -> s <> "" ->
  all_digits h = true -> all_digits mi = true -> all_digits s = true ->
  clock_chars rest = true ->
  _normalise_time_string (h ++ ":" ++ mi ++ ":" ++ s ++ ":" ++ rest)
  = h ++ ":" ++ mi ++ ":" ++ s ++ ":" ++ rest
  /\ time_seconds_of [Str (h ++ ":" ++ mi ++ ":" ++ s ++ ":" ++ rest)]
     = Raise ValueError.
Proof.
  intros Hh Hm Hs Dh Dm Ds Hr.
  assert (Hn : _normalise_time_string (h ++ ":" ++ mi ++ ":" ++ s ++ ":" ++ rest)
               = h ++ ":" ++ mi ++ ":" ++ s ++ ":" ++ rest).
  { apply normalise_not_one_colon.
    rewrite count_append, (count_colon_digits h Dh).
    change (":" ++ mi ++ ":" ++ s ++ ":" ++ rest)
      with (String ":" (mi ++ ":" ++ s ++ ":" ++ rest)).
    cbn [count]. simpl Ascii.eqb.
    rewrite count_append, (count_colon_digits mi Dm).
    change (":" ++ s ++ ":" ++ rest) with (String ":" (s ++ ":" ++ rest)).
    cbn [count]. simpl Ascii.eqb. simpl. discriminate. }
  split; [exact Hn |].
  apply time_seconds_of_rejected. rewrite Hn.
  unfold parse_timedelta_string, scan_start.
  rewrite (scan_digits h _ _ Dh). cbn [number current_unit result mult append].
  change (":" ++ mi ++ ":" ++ s ++ ":" ++ rest)
    with (String ":" (mi ++ String ":" (s ++ String ":" rest))).
  rewrite (scan_colon h _ _ _ _ Hh). cbv zeta. cbn [fst snd].
  destruct (int_limited_cases h Hh Dh) as [-> | ->]; [| reflexivity].
  cbn [bind].
  destruct (add_field_cases 0 (digits_value h) (1000000000 * 3600))
    as [-> | ->]; [| reflexivity].
  cbn [bind].
  rewrite (scan_digits mi _ _ Dm). cbn [number current_unit result mult append].
  rewrite (scan_colon mi _ _ _ _ Hm). cbv zeta. cbn [fst snd].
  destruct (int_limited_cases mi Hm Dm) as [-> | ->]; [| reflexivity].
  cbn [bind].
  destruct (add_field_cases (0 + digits_value h * (1000000000 * 3600))
                            (digits_value mi) (1000000000 * 60))
    as [-> | ->]; [| reflexivity].
  cbn [bind].
  rewrite (scan_digits s _ _ Ds). cbn [number current_unit result mult append].
  rewrite (scan_colon s _ _ _ _ Hs). cbv zeta. cbn [fst snd].
  destruct (int_limited_cases s Hs Ds) as [-> | ->]; [| reflexivity].
  cbn [bind].
  match goal with
  | |- context [add_field ?r ?n ?m] =>
      destruct (add_field_cases r n m) as [-> | ->]; [| reflexivity]
  end.
  cbn [bind]. now apply scan_after_seconds.
Qed.

Lemma too_many_fields_rejected_witness :
  time_seconds_of [Str "1:02:03:04"] = Raise ValueError.
Proof.
  refine (proj2 (too_many_fields_rejected "1" "02" "03" "04" _ _ _
                   eq_refl eq_refl eq_refl eq_refl)); discriminate.
Defined.

(** X4.  A time string with an empty field is rejected with a
    [ValueError]: any string that starts with a colon, and any "M:" of
    digits with nothing after the colon. *)
Theorem empty_field_rejected (t mi : string) :
  mi <> "" -> all_digits mi = true ->
  time_seconds_of [Str (":" ++ t)] = Raise ValueError
  /\ time_seconds_of [Str (mi ++ ":")] = Raise ValueError.
Proof.
  intros Hm Dm. split; apply time_seconds_of_rejected.
  - unfold _normalise_time_string.
    destruct (Nat.eqb (count ":" (":" ++ t)) 1); reflexivity.
  - rewrite normalise_one_colon.
    + change ("00:" ++ mi ++ ":") with ("00" ++ String ":" (mi ++ ":")).
      unfold parse_timedelta_string, scan_start.
      rewrite (scan_digits "00" _ _ eq_refl).
      cbn [number append current_unit result mult].
      rewrite scan_colon by discriminate.
      cbv zeta. cbn [fst snd].
      change (int_limited "00") with (Return 0). cbn [bind].
      change (add_field 0 0 (1000000000 * 3600)) with (Return 0).
      cbn [bind].
      rewrite (scan_digits mi _ _ Dm). cbn [number current_unit result mult append].
      rewrite scan_colon by assumption.
      cbv zeta. cbn [fst snd].
      destruct (int_limited_cases mi Hm Dm) as [-> | ->]; [| reflexivity].
      cbn [bind].
      destruct (add_field_cases 0 (digits_value mi) (1000000000 * 60))
        as [-> | ->]; reflexivity.
    + rewrite count_append, (count_colon_digits mi Dm). reflexivity.
Qed.

Lemma empty_field_rejected_witness :
  time_seconds_of [Str ":30"] = Raise ValueError
  /\ time_seconds_of [Str "25:"] = Raise ValueError.
Proof.
  refine (empty_field_rejected "30" "25" _ eq_refl). discriminate.
Defined.

(* ================================================================== *)
(** ** Further properties of the choice of the results table           *)
(* ================================================================== *)

Lemma find_app_found {A} (p : A -> bool) (l more : list A) (x : A) :
  find p l = Some x -> find p (l ++ more)%list = Some x.
Proof.
  induction l as [|a l IH]; simpl; [discriminate |].
  destruct (p a); [trivial | exact IH].
Qed.

Lemma find_app_skipped {A} (p : A -> bool) (skipped l : list A) :
  (forall x, In x skipped -> p x = false) ->
  find p (skipped ++ l)%list = find p l.
Proof.
  induction skipped as [|a skipped IH]; intros H; simpl; [reflexivity |].
  rewrite (H a (or_introl eq_refl)). apply IH. intros x Hx. apply H. now right.
Qed.

(** X5.  The choice of the results table is not disturbed by other
    tables: tables that follow on the page never change a table that was
    found, and tables without the three columns in front of the page
    change neither the table found nor the failure to find one. *)
Theorem other_tables_ignored (tables more skipped : list DataFrame)
        (t : DataFrame) :
  (forall df, In df skipped -> ~ has_required_columns df) ->
  (find_results_table tables = Return t ->
   find_results_table (tables ++ more)%list = Return t)
  /\ find_results_table (skipped ++ tables)%list = find_results_table tables.
Proof.
  intros Hskip. unfold find_results_table. split.
  - destruct (find (fun df => issubset required_columns (columns df)) tables)
      as [t'|] eqn:Hf; [| discriminate].
    intros [= ->]. now rewrite (find_app_found _ _ more _ Hf).
  - rewrite find_app_skipped; [reflexivity |].
    intros df Hdf. apply issubset_required_false. now apply Hskip.
Qed.

Lemma other_tables_ignored_witness :
  find_results_table (sample_tables_no_run_date ++ sample_tables)%list
  = find_results_table sample_tables.
Proof.
  refine (proj2 (other_tables_ignored sample_tables [] sample_tables_no_run_date
                   [] _)).
  intros df [<- | []]. apply issubset_required_false. reflexivity.
Defined.

(* ================================================================== *)
(** ** Further properties of the result set                            *)
(* ================================================================== *)

(** The last line of the function: the three columns, once the two
    assignments are made. *)
Lemma select_three (df : DataFrame) (event dates seconds : Series) :
  NoDup (columns df) ->
  getitem df (LStr "Event") = Return event ->
  getitem_list
    (setitem (setitem df (LStr "Run Date") dates) (LStr "time_seconds") seconds)
    [LStr "Event"; LStr "Run Date"; LStr "time_seconds"]
  = Return [ (LStr "Event", event);
             (LStr "Run Date", dates);
             (LStr "time_seconds", seconds) ].
Proof.
  intros Hnd Hev.
  pose proof (setitem_distinct (LStr "Run Date") dates df Hnd) as Hnd1.
  unfold getitem_list. cbn [mapM].
  rewrite (selected_setitem_other (LStr "time_seconds") (LStr "Event")),
    (selected_setitem_other (LStr "Run Date") (LStr "Event")),
    (selected_setitem_other (LStr "time_seconds") (LStr "Run Date"))
    by discriminate.
  rewrite (getitem_selected _ _ _ Hnd Hev),
    (selected_setitem_same _ _ _ Hnd), (selected_setitem_same _ _ _ Hnd1).
  reflexivity.
Qed.

(** Parsing a page, seen from the table the loop selects: the outcome is
    fixed by the "Run Date", "Time" and "Event" columns of that table. *)
Lemma parse_results_table
      (read_html : string -> Outcome (list DataFrame))
      (page_contents : string) (tables : list DataFrame) (df : DataFrame) :
  read_html page_contents = Return tables ->
  find_results_table tables = Return df ->
  NoDup (columns df) ->
  _parse_results_page read_html page_contents
  = (run_date <- getitem df (LStr "Run Date") ;;
     dates <- to_datetime run_date "%d/%m/%Y" ;;
     time <- getitem df (LStr "Time") ;;
     seconds <- time_seconds_of time ;;
     event <- getitem df (LStr "Event") ;;
     Return [ (LStr "Event", event);
              (LStr "Run Date", dates);
              (LStr "time_seconds", seconds) ]).
Proof.
  intros Hread Hfind Hnd.
  destruct (find_results_table_required _ _ Hfind) as [_ Hreq].
  destruct (getitem_present (LStr "Event") df Hnd) as [event Hev].
  { apply Hreq. left. reflexivity. }
  unfold _parse_results_page. rewrite Hread. cbn [bind]. rewrite Hfind. cbn [bind].
  destruct (getitem df (LStr "Run Date")) as [run_date| |]; cbn [bind];
    try reflexivity.
  destruct (to_datetime run_date "%d/%m/%Y") as [dates| |]; cbn [bind];
    try reflexivity.
  rewrite getitem_setitem_other by discriminate.
  destruct (getitem df (LStr "Time")) as [time| |]; cbn [bind]; try reflexivity.
  destruct (time_seconds_of time) as [seconds| |]; cbn [bind]; try reflexivity.
  rewrite Hev. cbn [bind]. now apply select_three.
Qed.

(** X6.  Columns other than "Event", "Run Date" and "Time", and the order
    of the columns, have no influence on the outcome: two selected tables
    that hold the same three columns give the same result set, or the same
    error. *)
Theorem other_columns_ignored
        (read_html1 read_html2 : string -> Outcome (list DataFrame))
        (page1 page2 : string) (tables1 tables2 : list DataFrame)
        (df1 df2 : DataFrame) :
  read_html1 page1 = Return tables1 -> find_results_table tables1 = Return df1 ->
  read_html2 page2 = Return tables2 -> find_results_table tables2 = Return df2 ->
  NoDup (columns df1) -> NoDup (columns df2) ->
  (forall l, In l required_columns -> getitem df1 l = getitem df2 l) ->
  _parse_results_page read_html1 page1 = _parse_results_page read_html2 page2.
Proof.
  intros R1 F1 R2 F2 N1 N2 Hsame.
  rewrite (parse_results_table _ _ _ _ R1 F1 N1),
    (parse_results_table _ _ _ _ R2 F2 N2).
  rewrite !Hsame; [reflexivity | | |]; simpl; tauto.
Qed.

Lemma other_columns_ignored_witness :
  _parse_results_page (fun _ => Return sample_tables) "<html>"
  = _parse_results_page (fun _ => Return [sample_table_narrow]) "<html>".
Proof.
  refine (other_columns_ignored (fun _ => Return sample_tables)
            (fun _ => Return [sample_table_narrow]) "<html>" "<html>"
            sample_tables [sample_table_narrow]
            (nth 1 sample_tables []) sample_table_narrow
            eq_refl eq_refl eq_refl eq_refl _ _ _).
  - simpl. repeat constructor; simpl; intros H;
      repeat (destruct H as [H | H]; [discriminate H |]); exact H.
  - simpl. repeat constructor; simpl; intros H;
      repeat (destruct H as [H | H]; [discriminate H |]); exact H.
  - intros l [<- | [<- | [<- | []]]]; reflexivity.
Defined.

Lemma getitem_In (df : DataFrame) (l : Label) (s : Series) :
  getitem df l = Return s -> In (l, s) df.
Proof.
  unfold getitem. destruct (selected l df) as [|c [|c' cs]] eqn:E; try discriminate.
  intros [= <-].
  assert (Hc : In c (selected l df)) by (rewrite E; now left).
  unfold selected in Hc. apply filter_In in Hc as [Hin Hl].
  apply label_eqb_eq in Hl. subst l. now destruct c.
Qed.

Lemma mapM_length {A B} (f : A -> Outcome B) (l : list A) (l' : list B) :
  mapM f l = Return l' -> List.length l' = List.length l.
Proof.
  intros H. apply mapM_Return in H. symmetry. exact (Forall2_length H).
Qed.

Lemma time_seconds_of_length (time seconds : Series) :
  time_seconds_of time = Return seconds ->
  List.length seconds = List.length time.
Proof.
  intros H. apply time_seconds_of_rows in H. symmetry. exact (Forall2_length H).
Qed.

(** X7.  No row is lost and none is added: when every column of the
    selected table has [n] rows, every column of a result set that is
    returned has [n] rows, and [n] is its length. *)
Theorem result_set_rows
        (read_html : string -> Outcome (list DataFrame))
        (page_contents : string) (tables : list DataFrame)
        (results_df result : DataFrame) (n : nat) :
  read_html page_contents = Return tables ->
  find_results_table tables = Return results_df ->
  NoDup (columns results_df) ->
  (forall l s, In (l, s) results_df -> List.length s = n) ->
  _parse_results_page read_html page_contents = Return result ->
  (forall l s, In (l, s) result -> List.length s = n)
  /\ len result = Z.of_nat n.
Proof.
  intros Hread Hfind Hnd Hrows Hres.
  rewrite (parse_results_table _ _ _ _ Hread Hfind Hnd) in Hres.
  apply bind_Return in Hres as [run_date [Hrd Hres]].
  apply bind_Return in Hres as [dates [Hdates Hres]].
  apply bind_Return in Hres as [time [Htime Hres]].
  apply bind_Return in Hres as [seconds [Hsec Hres]].
  apply bind_Return in Hres as [event [Hev Hres]].
  injection Hres as <-.
  rewrite to_datetime_dmy in Hdates. apply mapM_length in Hdates.
  apply time_seconds_of_length in Hsec.
  apply getitem_In, Hrows in Hrd, Htime, Hev.
  split.
  - intros l s [[= <- <-] | [[= <- <-] | [[= <- <-] | []]]]; congruence.
  - simpl. now rewrite Hev.
Qed.

Lemma result_set_rows_witness :
  (forall l s, In (l, s) sample_results -> List.length s = 2%nat)
  /\ len sample_results = 2.
Proof.
  refine (result_set_rows (fun _ => Return sample_tables) "<html>" sample_tables
            (nth 1 sample_tables []) sample_results 2
            eq_refl eq_refl _ _ eq_refl).
  - simpl. repeat constructor; simpl; intros H;
      repeat (destruct H as [H | H]; [discriminate H |]); exact H.
  - intros l s [[= <- <-] | [[= <- <-] | [[= <- <-] | [[= <- <-] | []]]]];
      reflexivity.
Defined.

Lemma apply_non_string (f : string -> string) (time : Series) (c : Cell) :
  In c time -> (forall t, c <> Str t) -> apply f time = Raise AttributeError.
Proof.
  intros Hin Hc. unfold apply.
  induction time as [|x time IH]; [contradiction |].
  cbn [mapM]. destruct x as [t| | | | | |]; cbn [apply_cell bind];
    try reflexivity.
  destruct Hin as [<- | Hin]; [now elim (Hc t) |].
  now rewrite (IH Hin).
Qed.

(** X8.  Unlike an empty "Run Date" cell, an empty "Time" cell aborts the
    run: when the dates convert and the "Time" column holds a value that
    is not text, parsing the page raises an [AttributeError]. *)
Theorem missing_time_rejected
        (read_html : string -> Outcome (list DataFrame))
        (page_contents : string) (tables : list DataFrame)
        (results_df : DataFrame) (run_date dates time : Series) (c : Cell) :
  read_html page_contents = Return tables ->
  find_results_table tables = Return results_df ->
  getitem results_df (LStr "Run Date") = Return run_date ->
  to_datetime run_date "%d/%m/%Y" = Return dates ->
  getitem results_df (LStr "Time") = Return time ->
  In c time -> (forall t, c <> Str t) ->
  _parse_results_page read_html page_contents = Raise AttributeError.
Proof.
  intros Hread Hfind Hrd Hdates Htime Hin Hc.
  unfold _parse_results_page. rewrite Hread. cbn [bind]. rewrite Hfind. cbn [bind].
  rewrite Hrd. cbn [bind]. rewrite Hdates. cbn [bind].
  rewrite getitem_setitem_other by discriminate. rewrite Htime. cbn [bind].
  unfold time_seconds_of. now rewrite (apply_non_string _ _ _ Hin Hc).
Qed.

Lemma missing_time_rejected_witness :
  _parse_results_page (fun _ => Return sample_tables_missing_time) "<html>"
  = Raise AttributeError.
Proof.
  refine (missing_time_rejected (fun _ => Return sample_tables_missing_time)
            "<html>" sample_tables_missing_time
            (nth 0 sample_tables_missing_time [])
            [Str "04/01/2020"; Str "11/01/2020"]
            [Timestamp (mkDate 2020 1 4); Timestamp (mkDate 2020 1 11)]
            [Str "25:13"; NaN] NaN
            eq_refl eq_refl eq_refl eq_refl eq_refl _ _).
  - right. left. reflexivity.
  - discriminate.
Defined.

(* ================================================================== *)
(** ** Further properties of the chart                                 *)
(* ================================================================== *)

(** A chart is either written, with the settings of the program, after one
    printed line, or not written, after no printed line. *)
Lemma generate_graph_outcome (df : DataFrame) :
  (exists fig,
      _generate_graph df
      = (["Writing output to results.html"], Return ("results.html", fig))
      /\ data_frame fig = df
      /\ x fig = "Run Date" /\ y fig = "time_seconds"
      /\ title fig = "Parkrun results"
      /\ xaxis_title fig = "Date"
      /\ yaxis_title fig = "Time (minute:seconds)"
      /\ In (LStr "Run Date") (columns df)
      /\ getitem df (LStr "time_seconds") = Return (tickvals fig)
      /\ List.length (ticktext fig) = List.length (tickvals fig))
  \/ (fst (_generate_graph df) = []
      /\ forall written, snd (_generate_graph df) <> Return written).
Proof.
  unfold _generate_graph, line.
  destruct (existsb (label_eqb (LStr "Run Date")) (columns df)) eqn:Ed;
    [| right; split; [reflexivity | discriminate]].
  destruct (existsb (label_eqb (LStr "time_seconds")) (columns df)) eqn:Es;
    [| right; split; [reflexivity | discriminate]].
  cbn [andb]. unfold bind_run, lift, print. cbn [fst snd app].
  destruct (getitem df (LStr "time_seconds")) as [secs| |] eqn:Hg;
    cbn [fst snd app]; try (right; split; [reflexivity | discriminate]).
  destruct (mapM _ secs) as [labels| |] eqn:Hl;
    cbn [fst snd app]; try (right; split; [reflexivity | discriminate]).
  left. eexists. split; [reflexivity |]. cbn.
  repeat split. - now apply existsb_label. - exact (mapM_length _ _ _ Hl).
Qed.

(** X9.  Whenever a chart is written, it is written to "results.html", it
    plots "time_seconds" against "Run Date" of the frame it was given, with
    the title "Parkrun results" and the axis titles "Date" and
    "Time (minute:seconds)", its tick values are the "time_seconds" column
    with one tick text for each, and the one line printed is
    "Writing output to results.html". *)
Theorem chart_settings (df : DataFrame) (file : string) (fig : Figure) :
  snd (_generate_graph df) = Return (file, fig) ->
  fst (_generate_graph df) = ["Writing output to results.html"]
  /\ file = "results.html"
  /\ data_frame fig = df
  /\ x fig = "Run Date" /\ y fig = "time_seconds"
  /\ title fig = "Parkrun results"
  /\ xaxis_title fig = "Date"
  /\ yaxis_title fig = "Time (minute:seconds)"
  /\ getitem df (LStr "time_seconds") = Return (tickvals fig)
  /\ List.length (ticktext fig) = List.length (tickvals fig).
Proof.
  intros H.
  destruct (generate_graph_outcome df)
    as [[fig' [Hg [H1 [H2 [H3 [H4 [H5 [H6 [_ [H8 H9]]]]]]]]]] | [_ Hn]].
  - rewrite Hg in H |- *. cbn [fst snd] in *. injection H as <- <-.
    repeat split; assumption.
  - now elim (Hn (file, fig)).
Qed.

Lemma chart_settings_witness :
  exists fig,
    snd (_generate_graph sample_results) = Return ("results.html", fig)
    /\ title fig = "Parkrun results"
    /\ List.length (ticktext fig) = List.length (tickvals fig).
Proof.
  eexists. split; [reflexivity |].
  pose proof (chart_settings sample_results _ _ eq_refl) as H.
  exact (conj (proj1 (proj2 (proj2 (proj2 (proj2 (proj2 H))))))
              (proj2 (proj2 (proj2 (proj2 (proj2 (proj2 (proj2 (proj2 (proj2 H)))))))))).
Defined.

(** X10.  A frame without a "Run Date" column or without a "time_seconds"
    column is not charted: the chart constructor raises a [ValueError],
    nothing is printed and no file is written. *)
Theorem chart_needs_columns (df : DataFrame) :
  ~ In (LStr "Run Date") (columns df) \/ ~ In (LStr "time_seconds") (columns df) ->
  _generate_graph df = ([], Raise ValueError).
Proof.
  intros H. unfold _generate_graph, line.
  destruct (existsb (label_eqb (LStr "Run Date")) (columns df)) eqn:Ed;
    [| reflexivity].
  destruct (existsb (label_eqb (LStr "time_seconds")) (columns df)) eqn:Es;
    [| reflexivity].
  apply existsb_label in Ed, Es. tauto.
Qed.

Lemma chart_needs_columns_witness :
  _generate_graph (nth 1 sample_tables []) = ([], Raise ValueError).
Proof.
  refine (chart_needs_columns (nth 1 sample_tables []) _).
  right. simpl. intros H.
  repeat (destruct H as [H | H]; [discriminate H |]). exact H.
Defined.

Lemma split_at_colon (a b c d : string) :
  count ":" a = O -> count ":" c = O ->
  a ++ ":" ++ b = c ++ ":" ++ d -> a = c /\ b = d.
Proof.
  revert c. induction a as [|p a IH]; intros c Ha Hc H.
  - destruct c as [|q c]; simpl in H.
    + injection H as <-. now split.
    + injection H as <- _. simpl in Hc. discriminate.
  - destruct c as [|q c]; simpl in H.
    + injection H as -> _. simpl in Ha. discriminate.
    + injection H as <- H. simpl in Ha, Hc.
      destruct (Ascii.eqb p ":"); [discriminate |].
      destruct (IH c Ha Hc H) as [-> ->]. now split.
Qed.

(** X11.  The tick text tells the duration: two non-negative durations
    with the same label are equal, and the duration is sixty times the
    number before the colon plus the number after it. *)
Theorem tick_label_tells_duration (v w : Z) :
  0 <= v -> 0 <= w ->
  (tick_label v = tick_label w -> v = w)
  /\ (forall mm ss,
         all_digits mm = true -> tick_label v = mm ++ ":" ++ ss ->
         v = 60 * digits_value mm + digits_value ss).
Proof.
  intros Hv Hw.
  assert (Hq : forall u, 0 <= u -> 0 <= u / 60) by (intros; apply Z.div_pos; lia).
  assert (Hr : forall u, 0 <= u mod 60) by (intros; apply Z.mod_pos_bound; lia).
  destruct (format_02d_numeral (v / 60) (Hq v Hv)) as [Dvq [Vvq _]].
  destruct (format_02d_numeral (v mod 60) (Hr v)) as [Dvr [Vvr _]].
  split.
  - destruct (format_02d_numeral (w / 60) (Hq w Hw)) as [Dwq [Vwq _]].
    destruct (format_02d_numeral (w mod 60) (Hr w)) as [Dwr [Vwr _]].
    unfold tick_label. intros H.
    apply split_at_colon in H as [E1 E2]; try now apply count_colon_digits.
    rewrite (Z.div_mod v 60), (Z.div_mod w 60) by lia.
    rewrite <- Vvq, <- Vvr, <- Vwq, <- Vwr, E1, E2. reflexivity.
  - intros mm ss Dm H. unfold tick_label in H.
    apply split_at_colon in H as [E1 E2]; try now apply count_colon_digits.
    rewrite <- E1, <- E2, Vvq, Vvr. apply Z.div_mod. lia.
Qed.

Lemma tick_label_tells_duration_witness :
  1513 = 60 * digits_value "25" + digits_value "13".
Proof.
  refine (proj2 (tick_label_tells_duration 1513 1513 _ _) "25" "13" eq_refl eq_refl);
    discriminate.
Defined.

(* ================================================================== *)
(** ** Further properties of the run                                   *)
(* ================================================================== *)

Lemma decimal_not_empty (n : N) : decimal n <> "".
Proof.
  destruct (N.lt_ge_cases n 10) as [H|H].
  - rewrite (decimal_small n H). discriminate.
  - rewrite (decimal_step n H). destruct (decimal (n / 10)); discriminate.
Qed.

(** The numeral of a non-negative integer reads back as the integer. *)
Lemma int_str (z : Z) : 0 <= z -> int (str z) = Return z.
Proof.
  intros Hz. unfold str. destruct (Z.ltb_spec z 0) as [?|_]; [lia |].
  rewrite int_digits.
  - rewrite decimal_value. f_equal. lia.
  - apply decimal_not_empty.
  - apply decimal_digits.
Qed.

Lemma request_failure
      (session_get : Request -> Outcome Response) (athlete_id : string) (e : Exn) :
  session_get (results_page_request athlete_id) = Raise e ->
  _request_results_page session_get athlete_id
  = ([request_line athlete_id], Raise e).
Proof.
  intros H. unfold _request_results_page.
  fold (results_page_request athlete_id). now rewrite H.
Qed.

Lemma status_in_error_range_dec (s : Z) :
  {400 <= s < 600} + {s < 400 \/ 600 <= s}.
Proof.
  destruct (Z_le_dec 400 s); [| right; lia].
  destruct (Z_lt_dec s 600); [left; lia | right; lia].
Qed.

(** X12.  An exception of the network ends the run as it is, after the two
    lines printed before the request; and the table parser is consulted
    only for a response with status 200: when the network raises, or
    answers with another status, the run is the same whatever the parser
    is. *)
Theorem parser_consulted_only_for_200
        (session_get : Request -> Outcome Response) (athlete_id : string) :
  (forall e read_html,
      session_get (results_page_request athlete_id) = Raise e ->
      analyse_results session_get read_html athlete_id
      = (lines_before_parsing athlete_id, Raise e))
  /\ ((forall r, session_get (results_page_request athlete_id) = Return r ->
                 status_code r <> 200) ->
      forall read_html1 read_html2,
        analyse_results session_get read_html1 athlete_id
        = analyse_results session_get read_html2 athlete_id).
Proof.
  split.
  - intros e read_html H. unfold analyse_results.
    now rewrite (request_failure _ _ _ H).
  - intros Hnot rh1 rh2.
    destruct (session_get (results_page_request athlete_id)) as [r|e|] eqn:Ha.
    + specialize (Hnot r eq_refl).
      destruct (status_in_error_range_dec (status_code r)) as [Hs|Hs].
      * now rewrite !(analyse_error_status _ _ _ _ Ha Hs).
      * destruct (Z.eq_dec (status_code r) 202) as [H202|H202].
        -- now rewrite !(analyse_202 _ _ _ _ Ha H202).
        -- now rewrite !(analyse_other_status _ _ _ _ Ha Hnot H202 Hs).
    + unfold analyse_results. now rewrite (request_failure _ _ _ Ha).
    + unfold analyse_results, _request_results_page.
      fold (results_page_request athlete_id). now rewrite Ha.
Qed.

Lemma parser_consulted_only_for_200_witness :
  analyse_results (fun _ => Return response_404) (fun _ => Return sample_tables)
                  "1234"
  = analyse_results (fun _ => Return response_404) (fun _ => Raise ValueError)
                    "1234".
Proof.
  refine (proj2 (parser_consulted_only_for_200 (fun _ => Return response_404)
                   "1234") _ _ _).
  intros r [= <-]. discriminate.
Defined.

(** X13.  A chart is written only after a response with status 200 whose
    page was parsed: when the run returns, the network answered the one
    request with status 200, the body of the answer was parsed to the
    frame that is charted, the chart went to "results.html", and the lines
    printed are the five progress lines, with the number of rows of the
    frame in the third. *)
Theorem chart_written_only_for_200
        (session_get : Request -> Outcome Response)
        (read_html : string -> Outcome (list DataFrame))
        (athlete_id file : string) (fig : Figure) :
  snd (analyse_results session_get read_html athlete_id) = Return (file, fig) ->
  exists r,
    session_get (results_page_request athlete_id) = Return r
    /\ status_code r = 200
    /\ _parse_results_page read_html (text r) = Return (data_frame fig)
    /\ file = "results.html"
    /\ fst (analyse_results session_get read_html athlete_id)
       = List.app (lines_before_parsing athlete_id)
                  [ "Parsed " ++ str (len (data_frame fig)) ++ " results";
                    "Generating graph";
                    "Writing output to results.html" ].
Proof.
  intros H.
  destruct (session_get (results_page_request athlete_id)) as [r|e|] eqn:Ha.
  - exists r. split; [reflexivity |].
    destruct (status_in_error_range_dec (status_code r)) as [Hs|Hs].
    { rewrite (analyse_error_status _ read_html _ _ Ha Hs) in H. discriminate H. }
    destruct (Z.eq_dec (status_code r) 200) as [H200|H200].
    + split; [exact H200 |].
      rewrite (analyse_200 _ read_html _ _ Ha H200) in H |- *.
      unfold bind_run, lift, print in H |- *. cbn [fst snd] in H |- *.
      destruct (_parse_results_page read_html (text r)) as [df| |];
        try discriminate H.
      cbn [fst snd] in H |- *.
      destruct (generate_graph_outcome df)
        as [[fig' [Hg [Hdf _]]] | [_ Hn]]; [| now elim (Hn (file, fig))].
      rewrite Hg in H |- *. cbn [fst snd] in H |- *.
      injection H as <- <-. rewrite Hdf. repeat split.
    + exfalso.
      destruct (Z.eq_dec (status_code r) 202) as [H202|H202].
      * rewrite (analyse_202 _ read_html _ _ Ha H202) in H. discriminate H.
      * rewrite (analyse_other_status _ read_html _ _ Ha H200 H202 Hs) in H.
        discriminate H.
  - unfold analyse_results in H. rewrite (request_failure _ _ _ Ha) in H.
    discriminate H.
  - unfold analyse_results, _request_results_page in H.
    fold (results_page_request athlete_id) in H. rewrite Ha in H. discriminate H.
Qed.

Lemma chart_written_only_for_200_witness :
  exists r,
    session_get_answer_200 (results_page_request "1234") = Return r
    /\ status_code r = 200
    /\ _parse_results_page (fun _ => Return sample_tables) (text r)
       = Return (data_frame sample_figure)
    /\ "results.html" = "results.html"
    /\ fst (analyse_results session_get_answer_200
                            (fun _ => Return sample_tables) "1234")
       = List.app (lines_before_parsing "1234")
                  [ "Parsed " ++ str (len (data_frame sample_figure)) ++ " results";
                    "Generating graph";
                    "Writing output to results.html" ].
Proof.
  exact (chart_written_only_for_200 session_get_answer_200
           (fun _ => Return sample_tables) "1234" "results.html" sample_figure
           eq_refl).
Defined.

(** X14.  The status code can be read back from the generic error: for a
    response with a non-negative status other than 200 and 202 and outside
    400 to 599, the message is "Failed to load page, error code: "
    followed by a numeral that [int] reads as the status. *)
Theorem error_code_readable
        (session_get : Request -> Outcome Response)
        (read_html : string -> Outcome (list DataFrame))
        (athlete_id : string) (r : Response) :
  session_get (results_page_request athlete_id) = Return r ->
  0 <= status_code r ->
  status_code r <> 200 -> status_code r <> 202 ->
  status_code r < 400 \/ 600 <= status_code r ->
  exists code,
    snd (analyse_results session_get read_html athlete_id)
    = Raise (RuntimeError ("Failed to load page, error code: " ++ code))
    /\ all_digits code = true
    /\ int code = Return (status_code r).
Proof.
  intros Ha H0 H200 H202 Hs. exists (str (status_code r)).
  rewrite (analyse_other_status _ read_html _ _ Ha H200 H202 Hs).
  split; [reflexivity |]. split; [| now apply int_str].
  unfold str. destruct (Z.ltb_spec (status_code r) 0); [lia |].
  apply decimal_digits.
Qed.

Lemma error_code_readable_witness :
  exists code,
    snd (analyse_results (fun _ => Return response_301)
                         (fun _ => Return sample_tables) "1234")
    = Raise (RuntimeError ("Failed to load page, error code: " ++ code))
    /\ all_digits code = true
    /\ int code = Return 301.
Proof.
  refine (error_code_readable (fun _ => Return response_301)
            (fun _ => Return sample_tables) "1234" response_301 eq_refl _ _ _ _).
  - discriminate.
  - discriminate.
  - discriminate.
  - left. reflexivity.
Defined.

(** X15.  Whatever the network does, the fetcher prints exactly one line,
    the address it requests; and a response it returns is the one the
    network gave to that request, with a status outside 400 to 599. *)
Theorem fetcher_contract
        (session_get : Request -> Outcome Response) (athlete_id : string) :
  fst (_request_results_page session_get athlete_id)
  = ["Requesting data from https://www.parkrun.org.uk/parkrunner/"
       ++ athlete_id ++ "/all/"]
  /\ (forall r,
         snd (_request_results_page session_get athlete_id) = Return r ->
         session_get (results_page_request athlete_id) = Return r
         /\ ~ 400 <= status_code r < 600).
Proof.
  destruct (session_get (results_page_request athlete_id)) as [r|e|] eqn:Ha.
  - destruct (status_in_error_range_dec (status_code r)) as [Hs|Hs].
    + rewrite (request_raises _ _ _ Ha Hs). split; [reflexivity |].
      intros r' H. discriminate H.
    + rewrite (request_returns _ _ _ Ha Hs). split; [reflexivity |].
      intros r' [= <-]. split; [reflexivity | lia].
  - rewrite (request_failure _ _ _ Ha). split; [reflexivity |].
    intros r' H. discriminate H.
  - unfold _request_results_page. fold (results_page_request athlete_id).
    rewrite Ha. split; [reflexivity |]. intros r' H. discriminate H.
Qed.

Lemma fetcher_contract_witness :
  session_get_answer_301 (results_page_request "1234") = Return response_301
  /\ ~ 400 <= status_code response_301 < 600.
Proof.
  exact (proj2 (fetcher_contract session_get_answer_301 "1234")
           response_301 eq_refl).
Defined.

(* ================================================================== *)
(** ** Further properties of the dates                                 *)
(* ================================================================== *)

Lemma day_text_digits (t : string) :
  all_digits t = true -> (1 <= String.length t <= 2)%nat ->
  1 <= digits_value t <= 31 -> day_text t (digits_value t).
Proof. intros. left. repeat split; try assumption; lia. Qed.

(** X16.  The leading zero of a day or of a month is optional: with a day
    digit and a month digit from 1 to 9, "D/M/YYYY", "0D/M/YYYY",
    "D/0M/YYYY" and "0D/0M/YYYY" are converted alike, to the same date or
    to the same error. *)
Theorem leading_zero_optional (a b : ascii) (yyyy : string) :
  is_digit a = true -> a <> "0"%char -> is_digit b = true -> b <> "0"%char ->
  let plain := String a ("/" ++ String b ("/" ++ yyyy)) in
  to_datetime [Str (String "0" (String a ("/" ++ String b ("/" ++ yyyy))))] "%d/%m/%Y"
  = to_datetime [Str plain] "%d/%m/%Y"
  /\ to_datetime [Str (String a ("/" ++ String "0" (String b ("/" ++ yyyy))))] "%d/%m/%Y"
     = to_datetime [Str plain] "%d/%m/%Y"
  /\ to_datetime [Str (String "0" (String a ("/" ++ String "0" (String b ("/" ++ yyyy)))))]
                 "%d/%m/%Y"
     = to_datetime [Str plain] "%d/%m/%Y".
Proof.
  intros Da Na Db Nb plain. subst plain.
  rewrite !to_datetime_dmy. cbn [mapM to_datetime_cell].
  assert (Hnull : forall s, (4 <= String.length s)%nat -> is_null_string s = false).
  { intros s Hs. destruct (is_null_string s) eqn:E; [| reflexivity].
    apply null_string_short in E. lia. }
  rewrite !Hnull by (simpl; lia).
  assert (Hone : forall c, is_digit c = true -> c <> "0"%char ->
                 1 <= digit_value c <= 9).
  { intros c Dc Nc. each_digit c Dc; try (now elim Nc); vm_compute; split; discriminate. }
  assert (Hday : forall c, is_digit c = true -> c <> "0"%char ->
                 day_text (String c "") (digit_value c)
                 /\ day_text (String "0" (String c "")) (digit_value c)).
  { intros c Dc Nc. pose proof (Hone c Dc Nc). split.
    - rewrite <- digits_value_1. apply day_text_digits.
      + simpl. now rewrite Dc.
      + simpl. lia.
      + rewrite digits_value_1. lia.
    - replace (digit_value c) with (digits_value (String "0" (String c "")))
        by (rewrite digits_value_2; reflexivity).
      apply day_text_digits.
      + simpl. now rewrite Dc.
      + simpl. lia.
      + rewrite digits_value_2. change (digit_value "0") with 0. lia. }
  assert (Hmonth : forall c, is_digit c = true -> c <> "0"%char ->
                   month_text (String c "") (digit_value c)
                   /\ month_text (String "0" (String c "")) (digit_value c)).
  { intros c Dc Nc. pose proof (Hone c Dc Nc). split.
    - unfold month_text. simpl all_digits. rewrite Dc, digits_value_1.
      simpl String.length. repeat split; lia.
    - unfold month_text. simpl all_digits. rewrite Dc, digits_value_2.
      change (digit_value "0") with 0. simpl String.length.
      repeat split; lia. }
  destruct (Hday a Da Na) as [Hd1 Hd2]. destruct (Hmonth b Db Nb) as [Hm1 Hm2].
  assert (Hparse : forall td tm,
             day_text td (digit_value a) -> month_text tm (digit_value b) ->
             strptime (td ++ "/" ++ tm ++ "/" ++ yyyy) dmy_format
             = if isascii yyyy then
                 match match_directives [Dir_Y] yyyy
                         (mkFields 1900 (digit_value b) (digit_value a)) with
                 | None => Raise ValueError
                 | Some (f, EmptyString) =>
                     if valid_date (f_year f) (f_month f) (f_day f)
                     then Return (mkDate (f_year f) (f_month f) (f_day f))
                     else Raise ValueError
                 | Some (_, String _ _) => Raise ValueError
                 end
               else Unmodelled).
  { intros td tm Htd Htm. unfold strptime, dmy_format.
    rewrite (isascii_day_month td tm yyyy _ _ Htd Htm).
    rewrite (match_day td _ _ _ _ Htd), (match_month tm _ _ _ _ Htm).
    cbn [record_group f_year f_month f_day default_fields].
    now rewrite (day_text_value _ _ Htd), (month_text_value _ _ Htm). }
  pose proof (Hparse _ _ Hd1 Hm1) as P11. pose proof (Hparse _ _ Hd2 Hm1) as P21.
  pose proof (Hparse _ _ Hd1 Hm2) as P12. pose proof (Hparse _ _ Hd2 Hm2) as P22.
  cbn [append] in P11, P21, P12, P22.
  change ("/" ++ String b ("/" ++ yyyy)) with (String "/" (String b (String "/" yyyy))).
  change ("/" ++ String "0" (String b ("/" ++ yyyy)))
    with (String "/" (String "0" (String b (String "/" yyyy)))).
  rewrite P11, P21, P12, P22. repeat split.
Qed.

Lemma leading_zero_optional_witness :
  to_datetime [Str "04/01/2020"] "%d/%m/%Y" = to_datetime [Str "4/1/2020"] "%d/%m/%Y".
Proof.
  refine (proj2 (proj2 (leading_zero_optional "4" "1" "2020" eq_refl _ eq_refl _)));
    discriminate.
Defined.
